(** * DSkrzypiec/scheduler: DAG metadata hashing, the scheduler's state cache
    and the per-tick scheduling step

  The development follows the Go packages of the repository:
  - [time_]   instants and durations as integers (Go's [time] package);
  - [hex]     [encoding/hex.EncodeToString];
  - [dag]     package [dag]: [Dag], its builder, [HashDagMeta], [HashTasks];
  - [sched]   package [sched]: [simpleCache] with [PullFromDatabase], and
              the scheduling step driven by the tests of the package. *)

From Stdlib Require Import ZArith Lia List Ascii String.
From stdpp Require Import base option gmap strings list sorting.

#[local] Open Scope Z_scope.

(** ** Errors

  Go's [error] values.  The two sentinels of package [sched] are compared by
  identity in the source ([getErr == ErrCacheKeyDoesNotExist]); every other
  error carries its message. *)
Inductive error : Type :=
| ErrCacheKeyExists
| ErrCacheKeyDoesNotExist
| errorString (msg : string).

#[global] Instance error_eq_dec : EqDecision error.
Proof. solve_decision. Defined.

(** A Go result pair [(v, err)] with [err != nil] exclusive of [v]. *)
Inductive result (A : Type) : Type :=
| Ok (v : A)
| Err (e : error).
Arguments Ok {A} v.
Arguments Err {A} e.

(** ** Instants and durations *)
Module time_.

(** [time.Time] as nanoseconds since the Unix epoch (UTC) and
    [time.Duration] as a count of nanoseconds. *)
Abbreviation Time := Z (only parsing).
Abbreviation Duration := Z (only parsing).

Definition Nanosecond : Duration := 1.
Definition Microsecond : Duration := 1000 * Nanosecond.
Definition Millisecond : Duration := 1000 * Microsecond.
Definition Second : Duration := 1000 * Millisecond.
Definition Minute : Duration := 60 * Second.
Definition Hour : Duration := 60 * Minute.

(** Days between 1970-01-01 and the civil date [y]-[m]-[d] of the
    proleptic Gregorian calendar. *)
Definition daysSinceEpoch (y m d : Z) : Z :=
  let y' := if m <=? 2 then y - 1 else y in
  let era := y' / 400 in
  let yoe := y' - era * 400 in
  let mp := (m + 9) mod 12 in
  let doy := (153 * mp + 2) / 5 + d - 1 in
  let doe := yoe * 365 + yoe / 4 - yoe / 100 + doy in
  era * 146097 + doe - 719468.

(** [time.Date(year, month, day, hour, min, sec, nsec, time.UTC)]. *)
Definition Date (year month day hour min sec nsec : Z) : Time :=
  ((daysSinceEpoch year month day * 24 + hour) * 60 + min) * 60 * Second
  + sec * Second + nsec.

Definition October : Z := 10.

(** [t.Add(d)] *)
Definition Add (t : Time) (d : Duration) : Time := t + d.

(** [t.Compare(u)]: -1, 0 or +1. *)
Definition Compare (t u : Time) : Z :=
  if t <? u then -1 else if u <? t then 1 else 0.

End time_.

(** ** [encoding/hex] *)
Module hex.

Definition hextable : string := "0123456789abcdef".

Definition digit (n : N) : ascii :=
  match String.get (N.to_nat n) hextable with
  | Some c => c
  | None => "0"%char
  end.

(** [hex.EncodeToString]: two lower-case digits per byte, high nibble
    first. *)
Fixpoint EncodeToString (src : list Byte.byte) : string :=
  match src with
  | [] => EmptyString
  | b :: rest =>
      String (digit (N.shiftr (Byte.to_N b) 4))
        (String (digit (N.land (Byte.to_N b) 15)) (EncodeToString rest))
  end.

End hex.

(** ** Package [dag] *)
Module dag.
Import time_.

(** Modelled from the spec: the declaration of [Id] is not under src/.
    Spec 3: "Id, a globally unique string"; the source converts with
    [string(d.Id)] and [dag.Id(dagId)]. *)
Abbreviation Id := string (only parsing).

(** [[]byte(s)] *)
Definition bytes (s : string) : list Byte.byte := list_byte_of_string s.

(** [Attr].  A Go slice is either [nil] or a (possibly empty) sequence, and
    [encoding/json] tells the two apart, so [Tags] keeps the distinction. *)
Record Attr : Type := mkAttr {
  CatchUp : bool;
  Tags : option (list string)
}.

(** Modelled from the spec: the declaration of [FixedSchedule] is not under
    src/.  Spec 3: "a fixed interval schedule (Start, Interval)"; the tests
    of package [sched] build it as [FixedSchedule{Interval: ..., Start: ...}]. *)
Record FixedSchedule : Type := mkFixedSchedule {
  Interval : Duration;
  Start : Time
}.

(** Modelled from the spec: the declaration of the [Schedule] interface is
    not under src/.  Spec 2: "polymorphic time-series generator (currently
    one variant: fixed-interval schedule with a start time)". *)
Inductive Schedule : Type :=
| Fixed (fs : FixedSchedule).

(** Modelled from the spec: [FixedSchedule.StartTime] is not under src/.
    Spec 4.2: "StartTime() is fixed and never changes"; for the fixed
    interval schedule it is its [Start]. *)
Definition StartTime (s : Schedule) : Time :=
  match s with Fixed fs => Start fs end.

(** Modelled from the spec: the declaration of [Task] is not under src/.
    Spec 3: a task is "polymorphic over capability {Id() string,
    Execute()}"; what is kept of [Execute] is its source text, which package
    [db] stores as the task body. *)
Record Task : Type := mkTask {
  Task_Id : string;
  Task_ExecuteSource : string
}.

(** Modelled from the spec: the declaration of [Node] is not under src/.
    Spec 3: a node "owns a Task ... and an ordered set of child node
    references". *)
#[warnings="-register-all"]
Inductive Node : Type :=
| mkNode (task : Task) (children : list Node).

(** [Dag]; the two pointer fields are [None] when [nil]. *)
Record Dag : Type := mkDag {
  Dag_Id : Id;
  Dag_Schedule : option Schedule;
  Dag_Attr : Attr;
  Dag_Root : option Node
}.

(** *** The builder: [New], [AddRoot], [AddSchedule], [AddAttributes], [Done] *)
Definition New (id : Id) : Dag :=
  {| Dag_Id := id; Dag_Schedule := None;
     Dag_Attr := {| CatchUp := false; Tags := None |}; Dag_Root := None |}.

Definition AddRoot (d : Dag) (node : Node) : Dag :=
  {| Dag_Id := Dag_Id d; Dag_Schedule := Dag_Schedule d;
     Dag_Attr := Dag_Attr d; Dag_Root := Some node |}.

Definition AddSchedule (d : Dag) (sched : Schedule) : Dag :=
  {| Dag_Id := Dag_Id d; Dag_Schedule := Some sched;
     Dag_Attr := Dag_Attr d; Dag_Root := Dag_Root d |}.

Definition AddAttributes (d : Dag) (attr : Attr) : Dag :=
  {| Dag_Id := Dag_Id d; Dag_Schedule := Dag_Schedule d;
     Dag_Attr := attr; Dag_Root := Dag_Root d |}.

Definition Done (d : Dag) : Dag := d.

(** A line written by [slog.Error] in this package. *)
Inductive LogRecord : Type :=
| slog_Error (msg : string) (attr : Attr) (err : error).

(** A [hash.Hash]: [Write] appends to what was written so far and [Sum]
    appends the digest of all of it to its argument. *)
Record Hash : Type := mkHash { written : list Byte.byte }.

Definition sha256_New : Hash := {| written := [] |}.

Definition Write (h : Hash) (p : list Byte.byte) : Hash :=
  {| written := written h ++ p |}.

Section Hashing.

(** The library functions the two hashes call: [json.Marshal] on an [Attr],
    the SHA-256 digest, [Schedule.String], [timeutils.ToString], and
    [Node.Hash] of the task tree. *)
Variable json_Marshal : Attr -> result (list Byte.byte).
Variable Sum256 : list Byte.byte -> list Byte.byte.
Variable Schedule_String : Schedule -> string.
Variable ToString : Time -> string.
Variable Node_Hash : Node -> string.

Definition Sum (h : Hash) (b : list Byte.byte) : list Byte.byte :=
  b ++ Sum256 (written h).

(** [Dag.HashDagMeta], with the lines it logs. *)
Definition HashDagMeta (d : Dag) : string * list LogRecord :=
  match json_Marshal (Dag_Attr d) with
  | Err jErr =>
      ("CANNOT SERIALIZE DAG ATTRIBUTES"%string,
       [slog_Error "Cannot serialize DAG attributes" (Dag_Attr d) jErr])
  | Ok attrJson =>
      let '(sched, startTsStr) :=
        match Dag_Schedule d with
        | Some s => (Schedule_String s, ToString (StartTime s))
        | None => (EmptyString, EmptyString)
        end in
      let hasher := sha256_New in
      let hasher := Write hasher attrJson in
      let hasher := Write hasher (bytes sched) in
      let hasher := Write hasher (bytes startTsStr) in
      (hex.EncodeToString (Sum hasher []), [])
  end.

(** [Dag.HashTasks] *)
Definition HashTasks (d : Dag) : string :=
  match Dag_Root d with
  | None =>
      let hasher := sha256_New in
      let hasher := Write hasher (bytes "NO TASKS") in
      hex.EncodeToString (Sum hasher [])
  | Some root => Node_Hash root
  end.

(** What [HashDagMeta] reads of a DAG. *)
Definition meta (d : Dag) : Attr * option Schedule :=
  (Dag_Attr d, Dag_Schedule d).

End Hashing.

(** *** Occurrences of a schedule *)

(** Modelled from the spec: the interval of a schedule, the "one schedule
    interval" of spec 4.5; for the fixed interval schedule it is its
    [Interval]. *)
Definition Schedule_Interval (s : Schedule) : Duration :=
  match s with Fixed fs => Interval fs end.

(** Modelled from the spec: the occurrences of a schedule.  Spec 4.2:
    "occurrence(n) = Start + n * Interval", computed "by pure arithmetic (no
    drift from repeated addition)". *)
Definition occurrence (s : Schedule) (n : Z) : Time :=
  StartTime s + n * Schedule_Interval s.

(** Modelled from the spec: [FixedSchedule.Next] is not under src/.  Spec 3:
    a schedule answers "Next(after time) time" and its occurrences "are
    Start + k * Interval for integer k >= 0".  [Next s after] is the first
    occurrence strictly after [after]. *)
Definition Next (s : Schedule) (after : Time) : Time :=
  if after <? StartTime s then StartTime s
  else occurrence s ((after - StartTime s) / Schedule_Interval s + 1).

(** The most recent occurrence at or before [now], if the schedule has
    started by then. *)
Definition latestOccurrence (s : Schedule) (now : Time) : option Time :=
  if now <? StartTime s then None
  else Some (occurrence s ((now - StartTime s) / Schedule_Interval s)).

End dag.

(** ** Package [db]: what the cache reads *)
Module db.

(** [DagRunTask]: one row of table [dagruntasks]. *)
Record DagRunTask : Type := mkDagRunTask {
  DagId : string;
  ExecTs : string;
  TaskId : string;
  InsertTs : string;
  Status : string;
  StatusUpdateTs : string;
  Version : string
}.

(** Modelled from the spec: [Client.ReadDagRunTaskStatus] is not under src/.
    Spec 6: "ReadDagRunTaskStatus(dagId, atTime, taskId) ->
    (statusString, statusUpdateTimestamp), fails if not found".  The client
    is the table it reads. *)
Definition ReadDagRunTaskStatus (rows : list DagRunTask)
    (dagId execTs taskId : string) : result (string * string) :=
  match
    List.find
      (fun r => bool_decide (DagId r = dagId /\ ExecTs r = execTs
                             /\ TaskId r = taskId)) rows
  with
  | Some r => Ok (Status r, StatusUpdateTs r)
  | None => Err (errorString "sql: no rows in result set")
  end.

End db.

(** ** Package [sched]: the state cache *)
Module sched.
Import time_ dag.

(** Modelled from the spec: the declaration of [DagRun] is not under src/.
    Spec 3: "DagRun: (DagId, AtTime)". *)
Record DagRun : Type := mkDagRun {
  DagRun_DagId : Id;
  DagRun_AtTime : Time
}.

(** Modelled from the spec: the declaration of [DagRunTask] is not under
    src/.  Spec 3: "(DagId, AtTime, TaskId)", the three fields
    [PullFromDatabase] reads of the key. *)
Record DagRunTask : Type := mkDagRunTask {
  DagRunTask_DagId : Id;
  DagRunTask_AtTime : Time;
  DagRunTask_TaskId : string
}.

(** Modelled from the spec: the declaration of [DagRunTaskStatus] is not
    under src/.  Spec 3: "Status is an enumerated variant set (at minimum:
    SCHEDULED, RUNNING, SUCCESS, FAILED". *)
Inductive DagRunTaskStatus : Type :=
| Scheduled
| Running
| Success
| Failed.

(** Modelled from the spec: the declaration of [DagRunTaskState] is not
    under src/.  Spec 3: "{Status, StatusUpdateTs}", the two fields
    [PullFromDatabase] fills in. *)
Record DagRunTaskState : Type := mkDagRunTaskState {
  Status : DagRunTaskStatus;
  StatusUpdateTs : Time
}.

#[global] Instance DagRun_eq_dec : EqDecision DagRun.
Proof. solve_decision. Defined.

#[global] Instance DagRun_countable : Countable DagRun.
Proof.
  refine (inj_countable' (fun r => (DagRun_DagId r, DagRun_AtTime r))
            (fun p => mkDagRun p.1 p.2) _).
  intros []. reflexivity.
Defined.

#[global] Instance DagRunTask_eq_dec : EqDecision DagRunTask.
Proof. solve_decision. Defined.

#[global] Instance DagRunTask_countable : Countable DagRunTask.
Proof.
  refine (inj_countable'
            (fun r => (DagRunTask_DagId r, DagRunTask_AtTime r, DagRunTask_TaskId r))
            (fun p => mkDagRunTask p.1.1 p.1.2 p.2) _).
  intros []. reflexivity.
Defined.

#[global] Instance DagRunTaskStatus_eq_dec : EqDecision DagRunTaskStatus.
Proof. solve_decision. Defined.

#[global] Instance DagRunTaskState_eq_dec : EqDecision DagRunTaskState.
Proof. solve_decision. Defined.

(** Modelled from the spec: the string form of a status, not under src/.
    Spec 3 names the forms SCHEDULED, RUNNING, SUCCESS and FAILED. *)
Definition DagRunTaskStatus_String (s : DagRunTaskStatus) : string :=
  match s with
  | Scheduled => "SCHEDULED"
  | Running => "RUNNING"
  | Success => "SUCCESS"
  | Failed => "FAILED"
  end.

(** Modelled from the spec: [stringToDagRunTaskStatus] is not under src/.
    Spec 3: the string form "must round-trip through a stringToStatus parse
    that fails with an error on unrecognized input". *)
Definition stringToDagRunTaskStatus (s : string) : result DagRunTaskStatus :=
  if decide (s = "SCHEDULED"%string) then Ok Scheduled
  else if decide (s = "RUNNING"%string) then Ok Running
  else if decide (s = "SUCCESS"%string) then Ok Success
  else if decide (s = "FAILED"%string) then Ok Failed
  else Err (errorString "invalid dag run task status").

(** [any(key)]: a key boxed with its dynamic type, what the type switch of
    [PullFromDatabase] inspects. *)
Inductive anyKey : Type :=
| anyDagRun (k : DagRun)
| anyDagRunTask (k : DagRunTask).

(** [cacheableKeys]: the type set [DagRun | DagRunTask]; map keys are
    comparable. *)
Class cacheableKeys (K : Type) : Type := {
  cacheableKeys_eq_dec :: EqDecision K;
  cacheableKeys_countable :: Countable K;
  toAny : K -> anyKey
}.

#[global] Instance DagRun_cacheableKeys : cacheableKeys DagRun :=
  {| toAny := anyDagRun |}.

#[global] Instance DagRunTask_cacheableKeys : cacheableKeys DagRunTask :=
  {| toAny := anyDagRunTask |}.

(** [cacheableValues]: the type set with the one member [DagRunTaskState],
    so the assertion [any(v).(V)] of a [DagRunTaskState] always holds. *)
Class cacheableValues (V : Type) : Type := {
  ofState : DagRunTaskState -> V
}.

#[global] Instance DagRunTaskState_cacheableValues :
  cacheableValues DagRunTaskState := {| ofState := fun v => v |}.

(** [simpleCache]; the embedded mutex serialises the methods, which are
    modelled one call at a time. *)
Record simpleCache (K V : Type) `{cacheableKeys K} : Type := mkSimpleCache {
  data : gmap K V
}.
Arguments mkSimpleCache {K V _} data.
Arguments data {K V _} _.

(** How a call ends: it returns its [error] (or [nil]), or it panics.
    Either way the cache is left in the state given. *)
Inductive outcome (S : Type) : Type :=
| Returned (err : option error) (s : S)
| Panicked (msg : string) (s : S).
Arguments Returned {S} err s.
Arguments Panicked {S} msg s.

(** A value or a panic. *)
Inductive must (A : Type) : Type :=
| Value (a : A)
| Panic (msg : string).
Arguments Value {A} a.
Arguments Panic {A} msg.

Section Cache.
Context {K V : Type} `{cacheableKeys K} `{cacheableValues V}.

Definition newSimpleCache : simpleCache K V := {| data := ∅ |}.

Definition Add (sc : simpleCache K V) (key : K) (val : V)
    : option error * simpleCache K V :=
  match data sc !! key with
  | Some _ => (Some ErrCacheKeyExists, sc)
  | None => (None, {| data := <[key := val]> (data sc) |})
  end.

Definition Get (sc : simpleCache K V) (key : K) : result V :=
  match data sc !! key with
  | Some res => Ok res
  | None => Err ErrCacheKeyDoesNotExist
  end.

Definition Remove (sc : simpleCache K V) (key : K) : simpleCache K V :=
  {| data := delete key (data sc) |}.

Definition Update (sc : simpleCache K V) (key : K) (newVal : V)
    : option error * simpleCache K V :=
  match data sc !! key with
  | Some _ => (None, {| data := <[key := newVal]> (data sc) |})
  | None => (Some ErrCacheKeyDoesNotExist, sc)
  end.

(** The collaborators of [PullFromDatabase], none of them under src/: the
    client's read, the status parser, [timeutils.ToString] and
    [timeutils.FromStringMust].  The last one has a single result and no
    error: whatever it cannot convert ends in a panic. *)
Variable ReadDagRunTaskStatus : string -> string -> string -> result (string * string).
Variable stringToStatus : string -> result DagRunTaskStatus.
Variable ToString : Time -> string.
Variable FromStringMust : string -> must Time.

Definition unsupportedKeyType : error :=
  errorString "unsupported key type given in PullFromDatabase".

(** [simpleCache.PullFromDatabase] *)
Definition PullFromDatabase (sc : simpleCache K V) (key : K)
    : outcome (simpleCache K V) :=
  match toAny key with
  | anyDagRunTask obj =>
      match ReadDagRunTaskStatus (DagRunTask_DagId obj)
              (ToString (DagRunTask_AtTime obj)) (DagRunTask_TaskId obj) with
      | Err err => Returned (Some err) sc
      | Ok (statusStr, statusUpdateTs) =>
          match stringToStatus statusStr with
          | Err sErr => Returned (Some sErr) sc
          | Ok status =>
              match FromStringMust statusUpdateTs with
              | Panic msg => Panicked msg sc
              | Value ts =>
                  let v := {| Status := status; StatusUpdateTs := ts |} in
                  match Get sc key with
                  | Err ErrCacheKeyDoesNotExist =>
                      let '(err, sc') := Add sc key (ofState v) in
                      Returned err sc'
                  | _ =>
                      let '(err, sc') := Update sc key (ofState v) in
                      Returned err sc'
                  end
              end
          end
      end
  | _ => Returned (Some unsupportedKeyType) sc
  end.

(** The upsert the last lines of [PullFromDatabase] perform. *)
Definition upsert (sc : simpleCache K V) (key : K) (val : V) : simpleCache K V :=
  {| data := <[key := val]> (data sc) |}.

End Cache.

(** ** Package [sched]: the scheduling step

    The functions of this part are exercised by the tests of the package
    (src/unnamed/part_001) but their bodies are not under src/. *)

(** Modelled from the spec: [ds.SimpleQueue] is not under src/.  Spec 4.4:
    "Bounded FIFO, fixed capacity at construction.  Push(item) fails with
    QueueFull if at capacity.  Pop() -> (item, fails with QueueEmpty if
    empty).  Size() -> int, current occupancy." *)
Record SimpleQueue (A : Type) : Type := mkSimpleQueue {
  items : list A;
  capacity : nat
}.
Arguments mkSimpleQueue {A} items capacity.
Arguments items {A} _.
Arguments capacity {A} _.

(** Modelled from the spec: the two errors of the queue, "QueueFull" and
    "QueueEmpty" (spec 4.4). *)
Definition ErrQueueIsFull : error := errorString "queue is full".

Definition ErrQueueIsEmpty : error := errorString "queue is empty".

(** Modelled from the spec: [ds.NewSimpleQueue], "fixed capacity at
    construction" (spec 4.4). *)
Definition NewSimpleQueue {A : Type} (cap : nat) : SimpleQueue A :=
  {| items := []; capacity := cap |}.

(** Modelled from the spec: [SimpleQueue.Size], "current occupancy"
    (spec 4.4). *)
Definition Size {A : Type} (q : SimpleQueue A) : nat := length (items q).

(** Modelled from the spec: [SimpleQueue.Push], which "fails with QueueFull
    if at capacity" (spec 4.4). *)
Definition Push {A : Type} (q : SimpleQueue A) (item : A) : result (SimpleQueue A) :=
  if decide (capacity q <= Size q)%nat then Err ErrQueueIsFull
  else Ok {| items := items q ++ [item]; capacity := capacity q |}.

(** Modelled from the spec: [SimpleQueue.Pop], which returns the oldest
    item and "fails with QueueEmpty if empty" (spec 4.4). *)
Definition Pop {A : Type} (q : SimpleQueue A) : result (A * SimpleQueue A) :=
  match items q with
  | [] => Err ErrQueueIsEmpty
  | item :: rest => Ok (item, {| items := rest; capacity := capacity q |})
  end.

(** The [db.Client] methods on table [dagruns] are not under src/.  The
    client is modelled as the table, in insertion order, with the
    timestamps kept as instants instead of their canonical strings. *)

(** Modelled from the spec: the error of a second insert of the same run,
    "fails if already exists" (spec 6). *)
Definition ErrDagRunExists : error :=
  errorString "UNIQUE constraint failed: dagruns.DagId, dagruns.ExecTs".

(** Modelled from the spec: [Client.InsertDagRun].  Spec 6:
    "InsertDagRun(dagId, atTime) -> fails if already exists or on storage
    error"; spec 4.5: "duplicate (DagId, AtTime) must not create two
    rows". *)
Definition InsertDagRun (c : list DagRun) (dagId : Id) (atTime : Time)
    : result (list DagRun) :=
  let row := {| DagRun_DagId := dagId; DagRun_AtTime := atTime |} in
  if decide (row ∈ c) then Err ErrDagRunExists else Ok (c ++ [row]).

(** Modelled from the spec: the order of [ReadDagRuns], "most recent first"
    (spec 6). *)
Definition moreRecent (a b : DagRun) : Prop :=
  DagRun_AtTime b <= DagRun_AtTime a.

#[global] Instance moreRecent_dec : RelDecision moreRecent.
Proof. intros a b. unfold moreRecent. apply _. Defined.

(** Modelled from the spec: [Client.ReadDagRuns].  Spec 6:
    "ReadDagRuns(dagId, limit) -> ordered sequence of DagRun, most recent
    first". *)
Definition ReadDagRuns (c : list DagRun) (dagId : Id) (limit : nat) : list DagRun :=
  take limit (merge_sort moreRecent (filter (fun r => DagRun_DagId r = dagId) c)).

(** Modelled from the spec: [Client.Count] on table [dagruns].  Spec 6:
    "Count(tableName) -> int". *)
Definition Count (c : list DagRun) : nat := length c.

(** Modelled from the spec: "the last recorded run's timestamp" of spec 4.5,
    the first row [ReadDagRuns] returns, if the DAG has a run. *)
Definition lastRun (c : list DagRun) (dagId : Id) : option Time :=
  DagRun_AtTime <$> head (ReadDagRuns c dagId 1).

(** Modelled from the spec: the due time of a DAG without CatchUp that has
    a run recorded.  Spec 4.5, word for word: "the most recent schedule
    occurrence that is <= currentTime but strictly after the last recorded
    run".  The spec names no value for the case that no occurrence is both;
    there is no due time then. *)
Definition skipAheadBySpec (sched : Schedule) (currentTime latest : Time)
    : option Time :=
  match latestOccurrence sched currentTime with
  | Some occ => if latest <? occ then Some occ else None
  | None => None
  end.

(** Modelled from the spec: the entry [nextScheduleForDagRuns] computes for
    one DAG; the function is not under src/.  Spec 4.5: a DAG with a null
    schedule "maps to a null next-due value"; with "no prior runs recorded,
    the next due time is the schedule's StartTime()"; with CatchUp it "is
    the last recorded run's timestamp plus one interval"; without CatchUp it
    is [skipAheadBySpec]. *)
Definition nextSchedule (d : Dag) (currentTime : Time) (c : list DagRun)
    : option Time :=
  match Dag_Schedule d with
  | None => None
  | Some sched =>
      match lastRun c (Dag_Id d) with
      | None => Some (StartTime sched)
      | Some latest =>
          if CatchUp (Dag_Attr d) then Some (latest + Schedule_Interval sched)
          else skipAheadBySpec sched currentTime latest
      end
  end.

(** Modelled from the spec: [nextScheduleForDagRuns] is not under src/.
    Spec 4.5: "computeNextSchedule(dags, currentTime, store) -> mapping
    DagId -> optional timestamp", one entry per DAG. *)
Definition nextScheduleForDagRuns (dags : list Dag) (currentTime : Time)
    (c : list DagRun) : gmap Id (option Time) :=
  foldl (fun m d => <[Dag_Id d := nextSchedule d currentTime c]> m) ∅ dags.

(** [time.Time{}], the zero instant: January 1 of year 1. *)
Definition zeroTime : Time := Date 1 1 1 0 0 0 0.

(** Modelled from the spec: [shouldBeSheduled] is not under src/.  Spec 4.5:
    it "returns fire = true iff nextScheduleMap[dag.Id] is non-null and
    currentTime >= nextScheduleMap[dag.Id].  On firing, it advances
    nextScheduleMap[dag.Id] by exactly one schedule interval".  The map is
    returned with the answer.  For a DAG that has no schedule there is no
    interval to advance by and the entry is left as it is. *)
Definition shouldBeSheduled (d : Dag) (nextSchedules : gmap Id (option Time))
    (currentTime : Time) : bool * Time * gmap Id (option Time) :=
  match nextSchedules !! Dag_Id d with
  | Some (Some nextSched) =>
      if nextSched <=? currentTime then
        (true, nextSched,
         match Dag_Schedule d with
         | Some sched =>
             <[Dag_Id d := Some (nextSched + Schedule_Interval sched)]> nextSchedules
         | None => nextSchedules
         end)
      else (false, zeroTime, nextSchedules)
  | _ => (false, zeroTime, nextSchedules)
  end.

(** Modelled from the spec: what [tryScheduleDag] reads and writes, the run
    queue, the map of next schedules and the store (spec 4.5:
    "tryScheduleDag(dag, currentTime, queue, nextScheduleMap, store)"). *)
Record Scheduler : Type := mkScheduler {
  queue : SimpleQueue DagRun;
  nextSchedules : gmap Id (option Time);
  dbClient : list DagRun
}.

(** Modelled from the spec: [tryScheduleDag] is not under src/.  Spec 4.5:
    it "calls shouldBeScheduled; if it fires, persists a new DagRun{DagId,
    AtTime: dueAt} via the store ... and pushes the same DagRun onto the run
    queue.  Reports the store's error, if any, to the caller".  A run that
    could not be persisted is not queued. *)
Definition tryScheduleDag (d : Dag) (currentTime : Time) (s : Scheduler)
    : option error * Scheduler :=
  let '(shouldBe, schedule, nextSchedules') :=
    shouldBeSheduled d (nextSchedules s) currentTime in
  if shouldBe then
    match InsertDagRun (dbClient s) (Dag_Id d) schedule with
    | Err iErr =>
        (Some iErr, {| queue := queue s; nextSchedules := nextSchedules';
                       dbClient := dbClient s |})
    | Ok c' =>
        let dagRun := {| DagRun_DagId := Dag_Id d; DagRun_AtTime := schedule |} in
        match Push (queue s) dagRun with
        | Err qErr =>
            (Some qErr, {| queue := queue s; nextSchedules := nextSchedules';
                           dbClient := c' |})
        | Ok q' =>
            (None, {| queue := q'; nextSchedules := nextSchedules';
                      dbClient := c' |})
        end
    end
  else
    (None, {| queue := queue s; nextSchedules := nextSchedules';
              dbClient := dbClient s |}).

(** The loop of [TestTryScheduleDagSimple]: one call per time point, the
    errors collected as the test reports them. *)
Fixpoint tryScheduleDagAt (d : Dag) (timePoints : list Time) (s : Scheduler)
    : list error * Scheduler :=
  match timePoints with
  | [] => ([], s)
  | currTime :: rest =>
      let '(err, s') := tryScheduleDag d currTime s in
      let '(errs, s'') := tryScheduleDagAt d rest s' in
      (from_option (fun e => [e]) [] err ++ errs, s'')
  end.

(** *** The fixtures of the tests (src/unnamed/part_001) *)

(** [emptyDag] *)
Definition emptyDag (dagId : string) (sched : Schedule) (attr : Attr) : Dag :=
  Done (AddAttributes (AddSchedule (New dagId) sched) attr).

(** The insertion loops of the tests: a run at [startTs + i hours] for
    [i = 0 .. dagRuns - 1], errors reported and the loop carried on. *)
Fixpoint insertDagRuns (c : list DagRun) (dagId : Id) (startTs : Time)
    (i : Z) (dagRuns : nat) : list error * list DagRun :=
  match dagRuns with
  | O => ([], c)
  | S n =>
      match InsertDagRun c dagId (time_.Add startTs (i * Hour)) with
      | Err e =>
          let '(errs, c') := insertDagRuns c dagId startTs (i + 1) n in
          (e :: errs, c')
      | Ok c1 => insertDagRuns c1 dagId startTs (i + 1) n
      end
  end.

Module TestNextScheduleForDagRunsSimple.
Definition dagRuns : nat := 10.
Definition dagId : string := "mock_dag".
Definition startTs : Time := Date 2023 October 5 12 0 0 0.
Definition sched : Schedule := Fixed {| Interval := 1 * Hour; Start := startTs |}.
Definition attr : Attr := {| CatchUp := false; Tags := None |}.
Definition d : Dag := emptyDag dagId sched attr.
Definition c : list DagRun := (insertDagRuns [] dagId startTs 0 dagRuns).2.
Definition currentTime : Time :=
  time_.Add startTs (Z.of_nat dagRuns * Hour + 45 * Minute).
Definition expectedNextSchedule : Time :=
  time_.Add startTs (Z.of_nat (dagRuns + 1) * Hour).
(** What the test asserts of the function it calls. *)
Definition passes
    (f : list Dag -> Time -> list DagRun -> gmap Id (option Time)) : Prop :=
  size (f [d] currentTime c) = 1%nat
  /\ exists nextSchedule,
       f [d] currentTime c !! Dag_Id d = Some (Some nextSchedule)
       /\ Compare nextSchedule expectedNextSchedule = 0.
End TestNextScheduleForDagRunsSimple.

Module TestNextScheduleForDagRunsSimpleWithCatchUp.
Definition dagRuns : nat := 1.
Definition dagId : string := "mock_dag".
Definition startTs : Time := Date 2023 October 5 12 0 0 0.
Definition sched : Schedule := Fixed {| Interval := 1 * Hour; Start := startTs |}.
Definition attr : Attr := {| CatchUp := true; Tags := None |}.
Definition d : Dag := emptyDag dagId sched attr.
Definition c : list DagRun := (insertDagRuns [] dagId startTs 0 dagRuns).2.
Definition currentTime : Time := Date 2023 October 10 10 0 0 0.
Definition expectedNextSchedule : Time := time_.Add startTs (1 * Hour).
Definition passes
    (f : list Dag -> Time -> list DagRun -> gmap Id (option Time)) : Prop :=
  size (f [d] currentTime c) = 1%nat
  /\ exists nextSchedule,
       f [d] currentTime c !! Dag_Id d = Some (Some nextSchedule)
       /\ Compare nextSchedule expectedNextSchedule = 0.
End TestNextScheduleForDagRunsSimpleWithCatchUp.

Module TestNextScheduleForDagRunsManyDagsSimple.
Definition attr : Attr := {| CatchUp := false; Tags := None |}.
Definition start : Time := Date 2023 October 5 12 0 0 0.
Definition sched1 : Schedule := Fixed {| Interval := 1 * Hour; Start := start |}.
Definition sched2 : Schedule := Fixed {| Interval := 5 * Hour; Start := start |}.
Definition sched3 : Schedule := Fixed {| Interval := 10 * Minute; Start := start |}.
Definition d1 : Dag := emptyDag "dag1" sched1 attr.
Definition d2 : Dag := emptyDag "dag2" sched2 attr.
Definition d3 : Dag := emptyDag "dag3" sched3 attr.
Definition c : list DagRun :=
  (fun dagId => {| DagRun_DagId := dagId; DagRun_AtTime := start |})
    <$> ["dag1"; "dag2"; "dag3"]%string.
Definition currentTime : Time := time_.Add start (5 * Minute).
Definition expectedNextScheds : list Time :=
  [ time_.Add start (1 * Hour); time_.Add start (5 * Hour);
    time_.Add start (10 * Minute) ].
Definition passes
    (f : list Dag -> Time -> list DagRun -> gmap Id (option Time)) : Prop :=
  size (f [d1; d2; d3] currentTime c) = 3%nat
  /\ (fun d => f [d1; d2; d3] currentTime c !! Dag_Id d) <$> [d1; d2; d3]
     = (fun t => Some (Some t)) <$> expectedNextScheds.
End TestNextScheduleForDagRunsManyDagsSimple.

Module TestNextScheduleForDagRunsNoSchedule.
Definition d1 : Dag := Done (New "d1").
Definition d2 : Dag := Done (New "s2").
Definition currentTime : Time := Date 2008 October 5 12 0 0 0.
Definition passes
    (f : list Dag -> Time -> list DagRun -> gmap Id (option Time)) : Prop :=
  size (f [d1; d2] currentTime []) = 2%nat
  /\ forall dagId nextSched,
       f [d1; d2] currentTime [] !! dagId = Some nextSched -> nextSched = None.
End TestNextScheduleForDagRunsNoSchedule.

Module TestShouldBeScheduledSimple.
Definition attr : Attr := {| CatchUp := false; Tags := None |}.
Definition start : Time := Date 2023 October 5 12 0 0 0.
Definition sched1 : Schedule := Fixed {| Interval := 1 * Hour; Start := start |}.
Definition d1 : Dag := emptyDag "dag1" sched1 attr.
Definition d2 : Dag := Done (New "dag4").
Definition d1ns : Time := Date 2023 October 5 14 0 0 0.
Definition nextSchedules : gmap Id (option Time) :=
  {[ Dag_Id d1 := Some d1ns; Dag_Id d2 := None ]}.
Definition currTime1 : Time := Date 2023 October 5 13 59 0 0.
Definition currTime2 : Time := Date 2023 October 5 14 0 1 0.
Definition expectedUpdatedNextSched : Time := Date 2023 October 5 15 0 0 0.
End TestShouldBeScheduledSimple.

Module TestTryScheduleDagSimple.
Definition attr : Attr := {| CatchUp := false; Tags := None |}.
Definition start : Time := Date 2023 October 5 12 0 0 0.
Definition sched1 : Schedule := Fixed {| Interval := 1 * Hour; Start := start |}.
Definition d1 : Dag := emptyDag "dag1" sched1 attr.
Definition d1ns : Time := Date 2023 October 5 14 0 0 0.
Definition initial : Scheduler :=
  {| queue := NewSimpleQueue 100;
     nextSchedules := {[ Dag_Id d1 := Some d1ns ]};
     dbClient := [] |}.
Definition timePoints : list Time :=
  [ Date 2023 October 5 13 0 0 0;
    Date 2023 October 5 14 0 1 0;
    Date 2023 October 5 14 59 59 0;
    Date 2023 October 5 15 1 1 0;
    Date 2023 October 5 15 2 0 0;
    Date 2023 October 5 16 30 0 0 ].
Definition expectedDagRuns : nat := 3.
Definition expectedExecTimes : list Time :=
  [ Date 2023 October 5 14 0 0 0;
    Date 2023 October 5 15 0 0 0;
    Date 2023 October 5 16 0 0 0 ].
Definition final : list error * Scheduler :=
  tryScheduleDagAt d1 timePoints initial.
End TestTryScheduleDagSimple.

End sched.

(** ** Sample collaborators

    Instances of the library functions the definitions are parameterised
    by, used where a statement is instantiated at concrete inputs. *)
Module sample.
Import time_ dag.

(** An encoder; like [json.Marshal] on an [Attr], it never fails. *)
Definition json_Marshal (a : Attr) : result (list Byte.byte) :=
  Ok (bytes (if CatchUp a then "catchUp:true" else "catchUp:false")
      ++ bytes (String.concat "," (default [] (Tags a)))).

(** A stand-in for the digest: the last 32 bytes written, zero padded. *)
Definition Sum256 (p : list Byte.byte) : list Byte.byte :=
  take 32 (reverse p ++ replicate 32 Byte.x00).

Definition Schedule_String (s : Schedule) : string :=
  match s with Fixed _ => "FixedSchedule" end.

Definition Node_Hash (n : Node) : string :=
  match n with mkNode task _ => Task_ExecuteSource task end.

(** A timestamp format known on two instants. *)
Definition stamps : list (string * Time) :=
  [ ("2023-10-05T12:00:00Z", Date 2023 October 5 12 0 0 0);
    ("2023-10-05T14:00:00Z", Date 2023 October 5 14 0 0 0) ]%string.

Definition ToString (t : Time) : string :=
  match List.find (fun p => bool_decide (p.2 = t)) stamps with
  | Some p => p.1
  | None => "0001-01-01T00:00:00Z"
  end.

Definition FromStringMust (s : string) : sched.must Time :=
  match List.find (fun p => bool_decide (p.1 = s)) stamps with
  | Some p => sched.Value p.2
  | None => sched.Panic ("cannot parse timestamp " ++ s)
  end.

End sample.

(** ** Package [db]: table [dags] (the second part of src/unnamed/part_001) *)
Module dbdags.

(** [Dag]: one row of table [dags]; a [*string] column is [None] when
    [nil]. *)
Record Dag : Type := mkDag {
  DagId : string;
  StartTs : option string;
  Schedule : option string;
  CreateTs : string;
  LatestUpdateTs : option string;
  CreateVersion : string;
  LatestUpdateVersion : option string;
  HashDagMeta : string;
  HashTasks : string;
  Attributes : string
}.

(** [Dag{}] *)
Definition zeroDag : Dag :=
  {| DagId := ""; StartTs := None; Schedule := None; CreateTs := "";
     LatestUpdateTs := None; CreateVersion := ""; LatestUpdateVersion := None;
     HashDagMeta := ""; HashTasks := ""; Attributes := "" |}.

(** [pointerEqual] *)
Definition pointerEqual {T : Type} `{EqDecision T} (a b : option T) : bool :=
  match a, b with
  | None, None => true
  | None, Some _ => false
  | Some _, None => false
  | Some x, Some y => bool_decide (x = y)
  end.

(** [Dag.Equals] *)
Definition Equals (d e : Dag) : bool :=
  if negb (bool_decide (DagId d = DagId e)) then false
  else if negb (pointerEqual (StartTs d) (StartTs e)) then false
  else if negb (pointerEqual (Schedule d) (Schedule e)) then false
  else if negb (bool_decide (CreateTs d = CreateTs e)) then false
  else if negb (pointerEqual (LatestUpdateTs d) (LatestUpdateTs e)) then false
  else if negb (bool_decide (CreateVersion d = CreateVersion e)) then false
  else if negb (pointerEqual (LatestUpdateVersion d) (LatestUpdateVersion e)) then false
  else if negb (bool_decide (HashDagMeta d = HashDagMeta e)) then false
  else if negb (bool_decide (HashTasks d = HashTasks e)) then false
  else if negb (bool_decide (Attributes d = Attributes e)) then false
  else true.

(** What [row.Scan] reports: the row, [sql.ErrNoRows] (a sentinel compared
    by identity), or another error. *)
Inductive sqlError : Type :=
| ErrNoRows
| otherError (e : error).

(** The statements of this file, each with the arguments [tx.Exec] is given,
    in their order: [dagInsertQuery] and [dagUpdateQuery]. *)
Inductive Stmt : Type :=
| dagInsertQuery (dagId : string) (startTs schedule : option string)
    (createTs : string) (latestUpdateTs : option string) (createVersion : string)
    (latestUpdateVersion : option string) (hashDagMeta hashTasks attributes : string)
| dagUpdateQuery (startTs schedule latestUpdateTs latestUpdateVersion : option string)
    (hashDagMeta hashTasks attributes dagId : string).

(** A transaction [*sql.Tx] over a database in state [S]: [QueryRow] with
    [readDagQuery] followed by [Scan], [Exec], [Commit] and [Rollback].  The
    transaction is the one [c.dbConn.Begin()] returned. *)
Record Tx (S : Type) : Type := mkTx {
  QueryRowScan : S -> string -> S * (Dag + sqlError);
  Exec : S -> Stmt -> S * option error;
  Commit : S -> S * option error;
  Rollback : S -> S * option error
}.
Arguments QueryRowScan {S} _ _ _.
Arguments Exec {S} _ _ _.
Arguments Commit {S} _ _.
Arguments Rollback {S} _ _.

Section Dags.

(** The functions of other packages: those [dag.Dag.HashDagMeta] and
    [dag.Dag.HashTasks] call, and the constant [version.Version]. *)
Variable json_Marshal : dag.Attr -> result (list Byte.byte).
Variable Sum256 : list Byte.byte -> list Byte.byte.
Variable Schedule_String : dag.Schedule -> string.
Variable ToString : Z -> string.
Variable Node_Hash : dag.Node -> string.
Variable Version : string.

(** [string(attrJson)] after [json.Marshal(d.Attr)], with the literal the
    two functions below put in its place on failure. *)
Definition attributes (d : dag.Dag) : string :=
  match json_Marshal (dag.Dag_Attr d) with
  | Ok attrJson => string_of_list_byte attrJson
  | Err _ => "FAILED DAG ATTR SERIALIZATION"
  end.

(** [fromDagToDag] *)
Definition fromDagToDag (d : dag.Dag) (createTs : string) : Dag :=
  let attrJson := attributes d in
  let '(dagStart, sched) :=
    match dag.Dag_Schedule d with
    | Some s => (Some (ToString (dag.StartTime s)), Some (Schedule_String s))
    | None => (None, None)
    end in
  {| DagId := dag.Dag_Id d;
     StartTs := dagStart;
     Schedule := sched;
     CreateTs := createTs;
     LatestUpdateTs := None;
     CreateVersion := Version;
     LatestUpdateVersion := None;
     HashDagMeta := (dag.HashDagMeta json_Marshal Sum256 Schedule_String ToString d).1;
     HashTasks := dag.HashTasks Sum256 Node_Hash d;
     Attributes := attrJson |}.

(** [dagUpdate] *)
Definition dagUpdate (d : dag.Dag) (currDagRow : Dag) (insertTs : string) : Dag :=
  let attrJson := attributes d in
  {| DagId := dag.Dag_Id d;
     StartTs := StartTs currDagRow;
     Schedule := Schedule currDagRow;
     CreateTs := CreateTs currDagRow;
     LatestUpdateTs := Some insertTs;
     CreateVersion := CreateVersion currDagRow;
     LatestUpdateVersion := Some Version;
     HashDagMeta := (dag.HashDagMeta json_Marshal Sum256 Schedule_String ToString d).1;
     HashTasks := dag.HashTasks Sum256 Node_Hash d;
     Attributes := attrJson |}.

Context {S : Type} (tx : Tx S).

(** [Client.readDagTx] *)
Definition readDagTx (s : S) (dagId : string) : S * (Dag * option sqlError) :=
  let '(s1, scanned) := QueryRowScan tx s dagId in
  match scanned with
  | inr ErrNoRows => (s1, (zeroDag, Some ErrNoRows))
  | inr scanErr => (s1, (zeroDag, Some scanErr))
  | inl row => (s1, (row, None))
  end.

(** [Client.insertDag] *)
Definition insertDag (s : S) (d : Dag) (insertTs : string) : S * option error :=
  Exec tx s
    (dagInsertQuery (DagId d) (StartTs d) (Schedule d) (CreateTs d)
       (LatestUpdateTs d) (CreateVersion d) (LatestUpdateVersion d)
       (HashDagMeta d) (HashTasks d) (Attributes d)).

(** [Client.updateDag] *)
Definition updateDag (s : S) (d : Dag) : S * option error :=
  Exec tx s
    (dagUpdateQuery (StartTs d) (Schedule d) (LatestUpdateTs d)
       (LatestUpdateVersion d) (HashDagMeta d) (HashTasks d) (Attributes d)
       (DagId d)).

(** [Client.ReadDag], once [c.dbConn.Begin()] has returned the transaction
    [tx]. *)
Definition ReadDag (s : S) (dagId : string) : S * (Dag * option sqlError) :=
  let '(s1, (d, err)) := readDagTx s dagId in
  let '(s2, cErr) := Commit tx s1 in
  match cErr with
  | Some e => (s2, (zeroDag, Some (otherError e)))
  | None => (s2, (d, err))
  end.

(** [Client.UpsertDag], once [c.dbConn.Begin()] has returned the
    transaction [tx]; [Client_UpsertDag] below starts at [Begin].
    [insertTs] is [timeutils.ToString(time.Now())]. *)
Definition UpsertDag (insertTs : string) (s : S) (d : dag.Dag) : S * option error :=
  let dagId := dag.Dag_Id d in
  let '(s1, (currDagRow, currErr)) := readDagTx s dagId in
  match currErr with
  | Some ErrNoRows =>
      let row := fromDagToDag d insertTs in
      let '(s2, iErr) := insertDag s1 row insertTs in
      let '(s3, cErr) := Commit tx s2 in
      match cErr with
      | Some e => let '(s4, _) := Rollback tx s3 in (s4, Some e)
      | None => (s3, iErr)
      end
  | _ =>
      let updatedDag := dagUpdate d currDagRow insertTs in
      let '(s2, uErr) := updateDag s1 updatedDag in
      let '(s3, cErr) := Commit tx s2 in
      match cErr with
      | Some e => let '(s4, _) := Rollback tx s3 in (s4, Some e)
      | None => (s3, uErr)
      end
  end.

End Dags.

(** *** From [Begin] on *)

(** The connection [c.dbConn]: [Begin], whose error [UpsertDag] drops, and
    the transaction it returns when it succeeds. *)
Record Conn (S : Type) : Type := mkConn {
  Begin : S -> S * option error;
  begun : Tx S
}.
Arguments Begin {S} _ _.
Arguments begun {S} _.

(** The panic of a method called on a nil [*sql.Tx]. *)
Definition nilTx : string :=
  "runtime error: invalid memory address or nil pointer dereference".

Section Client.

Variable json_Marshal : dag.Attr -> result (list Byte.byte).
Variable Sum256 : list Byte.byte -> list Byte.byte.
Variable Schedule_String : dag.Schedule -> string.
Variable ToString : Z -> string.
Variable Node_Hash : dag.Node -> string.
Variable Version : string.

Context {S : Type} (c : Conn S).

(** [Client.UpsertDag] from its first step, [tx, _ := c.dbConn.Begin()]:
    when [Begin] fails [tx] is nil, and the call panics in [readDagTx] at
    [tx.QueryRow]. *)
Definition Client_UpsertDag (insertTs : string) (s : S) (d : dag.Dag)
  : sched.outcome S :=
  let '(s0, bErr) := Begin c s in
  match bErr with
  | Some _ => sched.Panicked nilTx s0
  | None =>
      let '(s1, err) :=
        UpsertDag json_Marshal Sum256 Schedule_String ToString Node_Hash Version
          (begun c) insertTs s0 d in
      sched.Returned err s1
  end.

End Client.

(** *** Two databases *)

(** What a transaction was asked to do. *)
Inductive Event : Type :=
| evBegin
| evQueryRow (dagId : string)
| evExec (stmt : Stmt)
| evCommit
| evRollback.

(** A database whose answers are any function of what it was asked so
    far. *)
Record Answers : Type := mkAnswers {
  onBegin : list Event -> option error;
  onQueryRow : list Event -> string -> Dag + sqlError;
  onExec : list Event -> Stmt -> option error;
  onCommit : list Event -> option error;
  onRollback : list Event -> option error
}.

(** The transaction that records every request and answers as [a] says. *)
Definition recording (a : Answers) : Tx (list Event) :=
  {| QueryRowScan := fun h dagId => (h ++ [evQueryRow dagId], onQueryRow a h dagId);
     Exec := fun h stmt => (h ++ [evExec stmt], onExec a h stmt);
     Commit := fun h => (h ++ [evCommit], onCommit a h);
     Rollback := fun h => (h ++ [evRollback], onRollback a h) |}.

(** The connection that records every request and answers as [a] says. *)
Definition recordingConn (a : Answers) : Conn (list Event) :=
  {| Begin := fun h => (h ++ [evBegin], onBegin a h);
     begun := recording a |}.

(** [UPDATE dags SET StartTs, Schedule, LatestUpdateTs, LatestUpdateVersion,
    HashDagMeta, HashTasks, Attributes WHERE DagId]: the row after the
    update. *)
Definition updated (startTs schedule latestUpdateTs latestUpdateVersion : option string)
    (hashDagMeta hashTasks attributes : string) (row : Dag) : Dag :=
  {| DagId := DagId row;
     StartTs := startTs;
     Schedule := schedule;
     CreateTs := CreateTs row;
     LatestUpdateTs := latestUpdateTs;
     CreateVersion := CreateVersion row;
     LatestUpdateVersion := latestUpdateVersion;
     HashDagMeta := hashDagMeta;
     HashTasks := hashTasks;
     Attributes := attributes |}.

(** A table [dags] that carries out every statement: the rows in insertion
    order, [SELECT ... WHERE DagId = ?] scanned for its first row, [INSERT]
    adding a row, [UPDATE ... WHERE DagId = ?] rewriting the columns it sets
    in every row of that id. *)
Definition table : Tx (list Dag) :=
  {| QueryRowScan := fun rows dagId =>
       (rows,
        match List.find (fun r => bool_decide (DagId r = dagId)) rows with
        | Some r => inl r
        | None => inr ErrNoRows
        end);
     Exec := fun rows stmt =>
       match stmt with
       | dagInsertQuery dagId startTs schedule createTs latestUpdateTs
           createVersion latestUpdateVersion hashDagMeta hashTasks attributes =>
           (rows ++ [mkDag dagId startTs schedule createTs latestUpdateTs
                       createVersion latestUpdateVersion hashDagMeta hashTasks
                       attributes], None)
       | dagUpdateQuery startTs schedule latestUpdateTs latestUpdateVersion
           hashDagMeta hashTasks attributes dagId =>
           ((fun r => if bool_decide (DagId r = dagId)
                      then updated startTs schedule latestUpdateTs
                             latestUpdateVersion hashDagMeta hashTasks attributes r
                      else r) <$> rows, None)
       end;
     Commit := fun rows => (rows, None);
     Rollback := fun rows => (rows, None) |}.

End dbdags.

(** ** Command [scheduler]: the shutdown counter (src/cmd/scheduler/main.go) *)
Module main_.








(** The steps the handlers take on the shared state.  [ListDagsHandler] and
    [NextTaskHandler] call [StartEndpoint], and on return their deferred
    calls run last deferred first: [FinishEndpoint], then
    [CheckIfCanSafelyExit].  [ShutdownHandler] is one step.  A request is
    named by a number. *)
Inductive Step : Type :=
| enter (request : nat)
| leave (request : nat)
| check (request : nat)
| shutdown.

#[global] Instance Step_eq_dec : EqDecision Step.
Proof. solve_decision. Defined.


(** Where the requests are: between [StartEndpoint] and [FinishEndpoint],
    between [FinishEndpoint] and [CheckIfCanSafelyExit], or through. *)
Record Requests : Type := mkRequests {
  inFlight : gset nat;
  finishing : gset nat;
  through : gset nat
}.


Definition after (r : Requests) (s : Step) : Requests :=
  match s with
  | enter i => {| inFlight := {[i]} ∪ inFlight r; finishing := finishing r;
                  through := through r |}
  | leave i => {| inFlight := inFlight r ∖ {[i]}; finishing := {[i]} ∪ finishing r;
                  through := through r |}
  | check i => {| inFlight := inFlight r; finishing := finishing r ∖ {[i]};
                  through := {[i]} ∪ through r |}
  | shutdown => r
  end.





End main_.

(** ** Package db: the SQLite client *)
Module sqlite.

(** [err.Error()] *)
Definition Error (e : error) : string :=
  match e with
  | ErrCacheKeyExists => "given key already exists in the cache"
  | ErrCacheKeyDoesNotExist => "given key does not exist in the cache"
  | errorString msg => msg
  end.

(** [fmt.Errorf(prefix + ": %w", err)]: the error whose text is the prefix,
    a colon and the text of [err]. *)
Definition Errorf_w (prefix : string) (err : error) : error :=
  errorString (prefix ++ ": " ++ Error err).

(** [SqliteDB], without its lock; [DB] is the handle [*sql.DB]. *)
Record SqliteDB (DB : Type) : Type := mkSqliteDB {
  dbConn : DB;
  dbFilePath : string
}.
Arguments mkSqliteDB {DB} _ _.
Arguments dbConn {DB} _.
Arguments dbFilePath {DB} _.

(** [SqliteDB.DataSource] *)
Definition DataSource {DB : Type} (s : SqliteDB DB) : string := dbFilePath s.

(** [Client{&sqliteDB}] *)
Record Client (DB : Type) : Type := mkClient { Client_dbConn : SqliteDB DB }.
Arguments mkClient {DB} _.
Arguments Client_dbConn {DB} _.

(** [sqliteConnString] *)
Definition sqliteConnString (dbFilePath : string) : string :=
  "file://" ++ dbFilePath ++ "?journal_mode=WAL&cache=shared".

(** What this file asks of the operating system and of [database/sql], over
    a world in state [W]: [os.IsNotExist] of the error of [os.Stat],
    [os.MkdirAll] with [os.ModePerm], [os.Create], [os.CreateTemp],
    [File.Name], [File.Close], [os.Remove], [sql.Open], [DB.Exec] without
    arguments and [DB.Close].  The errors of [File.Close], [os.Remove] and
    [DB.Close] are dropped by every caller. *)
Record Sys (W File DB : Type) : Type := mkSys {
  os_Stat_IsNotExist : W -> string -> W * bool;
  os_MkdirAll : W -> string -> W * option error;
  os_Create : W -> string -> W * result File;
  os_CreateTemp : W -> string -> string -> W * result File;
  File_Name : File -> string;
  File_Close : W -> File -> W;
  os_Remove : W -> string -> W;
  sql_Open : W -> string -> string -> W * result DB;
  DB_Exec : W -> DB -> string -> W * option error;
  DB_Close : W -> DB -> W
}.
Arguments os_Stat_IsNotExist {W File DB} _ _ _.
Arguments os_MkdirAll {W File DB} _ _ _.
Arguments os_Create {W File DB} _ _ _.
Arguments os_CreateTemp {W File DB} _ _ _ _.
Arguments File_Name {W File DB} _ _.
Arguments File_Close {W File DB} _ _ _.
Arguments os_Remove {W File DB} _ _ _.
Arguments sql_Open {W File DB} _ _ _ _.
Arguments DB_Exec {W File DB} _ _ _ _.
Arguments DB_Close {W File DB} _ _ _.

Section Sqlite.

(** [strings.TrimSpace], [filepath.Dir] and [SchemaStatements], which is
    declared in another file of the package. *)
Variable TrimSpace : string -> string.
Variable filepath_Dir : string -> string.
Variable SchemaStatements : string -> result (list string).

Context {W File DB : Type} (sys : Sys W File DB).

(** The loop of [setupSqliteSchema]. *)
Fixpoint execAll (w : W) (db : DB) (schemaStmts : list string) : W * option error :=
  match schemaStmts with
  | [] => (w, None)
  | query :: rest =>
      let query := TrimSpace query in
      if bool_decide (query = "") then execAll w db rest
      else
        let '(w1, err) := DB_Exec sys w db query in
        match err with
        | Some e => (w1, Some e)
        | None => execAll w1 db rest
        end
  end.

(** [setupSqliteSchema] *)
Definition setupSqliteSchema (w : W) (db : DB) : W * option error :=
  match SchemaStatements "sqlite" with
  | Err err => (w, Some err)
  | Ok schemaStmts => execAll w db schemaStmts
  end.

(** [createSqliteDbIfNotExist] *)
Definition createSqliteDbIfNotExist (w : W) (dbFilePath : string) : W * result bool :=
  let '(w1, notExist) := os_Stat_IsNotExist sys w dbFilePath in
  if notExist then
    let '(w2, dirErr) := os_MkdirAll sys w1 (filepath_Dir dbFilePath) in
    match dirErr with
    | Some e => (w2, Err e)
    | None =>
        let '(w3, created) := os_Create sys w2 dbFilePath in
        match created with
        | Err fErr => (w3, Err fErr)
        | Ok file => (File_Close sys w3 file, Ok true)
        end
    end
  else (w1, Ok false).

(** [NewSqliteClient]; the line it logs is left out. *)
Definition NewSqliteClient (w : W) (dbFilePath : string) : W * result (Client DB) :=
  let '(w1, created) := createSqliteDbIfNotExist w dbFilePath in
  match created with
  | Err dbFileErr =>
      (w1, Err (Errorf_w "cannot create new empty SQLite database" dbFileErr))
  | Ok newDbCreated =>
      let connString := sqliteConnString dbFilePath in
      let '(w2, opened) := sql_Open sys w1 "sqlite" connString in
      match opened with
      | Err dbErr =>
          (w2, Err (Errorf_w ("cannot connect to SQLite DB (" ++ connString ++ ")")
                      dbErr))
      | Ok db =>
          let '(w3, schemaErr) :=
            if newDbCreated then setupSqliteSchema w2 db else (w2, None) in
          match schemaErr with
          | Some e =>
              (DB_Close sys w3 db,
               Err (Errorf_w ("cannot setup SQLite schema for " ++ connString) e))
          | None =>
              let sqliteDB := {| dbConn := db; dbFilePath := "" |} in
              (w3, Ok (mkClient sqliteDB))
          end
      end
  end.

(** [NewSqliteTmpClient] *)
Definition NewSqliteTmpClient (w : W) : W * result (Client DB) :=
  let '(w1, made) := os_CreateTemp sys w "" "sqlite-" in
  match made with
  | Err err => (w1, Err err)
  | Ok tmpFile =>
      let tmpFilePath := File_Name sys tmpFile in
      let w2 := File_Close sys w1 tmpFile in
      let '(w3, opened) := sql_Open sys w2 "sqlite" (sqliteConnString tmpFilePath) in
      match opened with
      | Err err => (os_Remove sys w3 tmpFilePath, Err err)
      | Ok db =>
          let '(w4, schemaErr) := setupSqliteSchema w3 db in
          match schemaErr with
          | Some e =>
              let w5 := DB_Close sys w4 db in
              (os_Remove sys w5 tmpFilePath,
               Err (Errorf_w "cannot setup SQLite schema" e))
          | None =>
              let sqliteDB := {| dbConn := db; dbFilePath := tmpFilePath |} in
              (w4, Ok (mkClient sqliteDB))
          end
      end
  end.

End Sqlite.

(** *** Two worlds *)

(** What the world was asked to do; a file is named by its path and a
    database handle by a string. *)
Inductive Event : Type :=
| evStat (path : string)
| evMkdirAll (dir : string)
| evCreate (path : string)
| evCreateTemp (dir pattern : string)
| evFileClose (file : string)
| evRemove (path : string)
| evOpen (driver connString : string)
| evExec (db query : string)
| evClose (db : string).

#[global] Instance Event_eq_dec : EqDecision Event.
Proof. solve_decision. Defined.

(** A world whose answers are any function of what it was asked so far. *)
Record Answers : Type := mkAnswers {
  onStat : list Event -> string -> bool;
  onMkdirAll : list Event -> string -> option error;
  onCreate : list Event -> string -> result string;
  onCreateTemp : list Event -> string -> string -> result string;
  onOpen : list Event -> string -> string -> result string;
  onExec : list Event -> string -> string -> option error
}.

(** The world that records every request and answers as [a] says. *)
Definition recording (a : Answers) : Sys (list Event) string string :=
  {| os_Stat_IsNotExist := fun h path => (h ++ [evStat path], onStat a h path);
     os_MkdirAll := fun h dir => (h ++ [evMkdirAll dir], onMkdirAll a h dir);
     os_Create := fun h path => (h ++ [evCreate path], onCreate a h path);
     os_CreateTemp := fun h dir pattern =>
       (h ++ [evCreateTemp dir pattern], onCreateTemp a h dir pattern);
     File_Name := fun file => file;
     File_Close := fun h file => h ++ [evFileClose file];
     os_Remove := fun h path => h ++ [evRemove path];
     sql_Open := fun h driver connString =>
       (h ++ [evOpen driver connString], onOpen a h driver connString);
     DB_Exec := fun h db query => (h ++ [evExec db query], onExec a h db query);
     DB_Close := fun h db => h ++ [evClose db] |}.

(** A disk and the statements carried out on its databases. *)
Record Disk : Type := mkDisk {
  files : gset string;
  executed : list (string * string)
}.

(** A world that keeps its files: a path exists from its creation to its
    removal, every directory can be made, every database can be opened (its
    handle is the connection string), and a statement is carried out unless
    [rejected] says it fails.  This disk has no room for temporary files. *)
Definition disk (rejected : string -> bool) : Sys Disk string string :=
  {| os_Stat_IsNotExist := fun w path => (w, bool_decide (path ∉ files w));
     os_MkdirAll := fun w dir => (w, None);
     os_Create := fun w path =>
       ({| files := {[path]} ∪ files w; executed := executed w |}, Ok path);
     os_CreateTemp := fun w dir pattern =>
       (w, Err (errorString "no space left on device"));
     File_Name := fun file => file;
     File_Close := fun w file => w;
     os_Remove := fun w path =>
       {| files := files w ∖ {[path]}; executed := executed w |};
     sql_Open := fun w driver connString => (w, Ok connString);
     DB_Exec := fun w db query =>
       if rejected query then (w, Some (errorString "SQL logic error"))
       else ({| files := files w; executed := executed w ++ [(db, query)] |}, None);
     DB_Close := fun w db => w |}.

End sqlite.

(** Stand-ins for the functions package [db] takes from elsewhere, and two
    worlds, used to run the SQLite client on examples. *)
Module sampleSqlite.

Definition isSpace (c : ascii) : bool :=
  bool_decide (c ∈ [" "; "009"; "010"; "011"; "012"; "013"]%char).

Fixpoint trimLeft (s : list ascii) : list ascii :=
  match s with
  | c :: rest => if isSpace c then trimLeft rest else s
  | [] => []
  end.

(** [strings.TrimSpace] on ASCII text. *)
Definition TrimSpace (s : string) : string :=
  string_of_list_ascii
    (reverse (trimLeft (reverse (trimLeft (list_ascii_of_string s))))).

(** The directory of a path that is not looked at. *)
Definition filepath_Dir (path : string) : string := "/var/lib/scheduler".

Definition SchemaStatements (driver : string) : result (list string) :=
  if bool_decide (driver = "sqlite")
  then Ok ["
  CREATE TABLE dags (DagId TEXT)";
           "
  ";
           "
  CREATE TABLE dagtasks (DagId TEXT, TaskId TEXT)
  "]
  else Err (errorString "there is no schema for given database").

(** A database that refuses the table [dagtasks]. *)
Definition rejected (query : string) : bool :=
  bool_decide (query = "CREATE TABLE dagtasks (DagId TEXT, TaskId TEXT)").

(** A world that makes the temporary file and opens the database, which
    then refuses the table [dagtasks]. *)
Definition refusing : sqlite.Answers :=
  {| sqlite.onStat := fun _ _ => true;
     sqlite.onMkdirAll := fun _ _ => None;
     sqlite.onCreate := fun _ path => Ok path;
     sqlite.onCreateTemp := fun _ _ pattern => Ok ("/tmp/" ++ pattern ++ "1870")%string;
     sqlite.onOpen := fun _ _ _ => Ok "db0";
     sqlite.onExec := fun _ _ query =>
       if rejected query then Some (errorString "SQL logic error") else None |}.

Definition emptyDisk : sqlite.Disk :=
  {| sqlite.files := ∅; sqlite.executed := [] |}.

End sampleSqlite.

(** ** Package db: table [dagtasks] *)
Module dbdagtasks.

(** [DagTask] *)
Record DagTask : Type := mkDagTask {
  DagId : string;
  TaskId : string;
  IsCurrent : bool;
  InsertTs : string;
  Version : string;
  TaskTypeName : string;
  TaskBodyHash : string;
  TaskBodySource : string
}.

(** [DagTask{}] *)
Definition zeroDagTask : DagTask :=
  {| DagId := ""; TaskId := ""; IsCurrent := false; InsertTs := ""; Version := "";
     TaskTypeName := ""; TaskBodyHash := ""; TaskBodySource := "" |}.

(** The eight columns of a row of [dagtasks], in the order [readDagTaskQuery]
    selects them and [dagTaskInsertQuery] lists them; [IsCurrent] is an
    integer. *)
Record Row : Type := mkRow {
  rDagId : string;
  rTaskId : string;
  rIsCurrent : Z;
  rInsertTs : string;
  rVersion : string;
  rTaskTypeName : string;
  rTaskBodyHash : string;
  rTaskBodySource : string
}.

(** The statements [InsertDagTasks] sends, each with the arguments [tx.Exec]
    is given, in their order: [dagTaskInsertQuery] and
    [dagTaskOutdateQuery]. *)
Inductive Stmt : Type :=
| dagTaskInsertQuery (dagId taskId : string) (isCurrent : Z)
    (insertTs version tTypeName taskHash taskBody : string)
| dagTaskOutdateQuery (dagId taskId currentInsertTs : string).

#[global] Instance Stmt_eq_dec : EqDecision Stmt.
Proof. solve_decision. Defined.

(** The clock, the connection and a transaction [*sql.Tx] over a database
    in state [S]: [time.Now().Format(InsertTsFormat)], [QueryRow] with
    [readDagTaskQuery] followed by [Scan], and [Exec], [Commit] and
    [Rollback] of the transaction, which is the one [c.dbConn.Begin()]
    returned. *)
Record Tx (S : Type) : Type := mkTx {
  Now_Format : S -> S * string;
  QueryRowScan : S -> string -> string -> S * (Row + dbdags.sqlError);
  Exec : S -> Stmt -> S * option error;
  Commit : S -> S * option error;
  Rollback : S -> S * option error
}.
Arguments Now_Format {S} _ _.
Arguments QueryRowScan {S} _ _ _ _.
Arguments Exec {S} _ _ _.
Arguments Commit {S} _ _.
Arguments Rollback {S} _ _.

Section DagTasks.

(** This file is written against the [dag.Dag] of its day, whose identifier
    is the field [Attr.Id]; the DAG enters through [string(d.Attr.Id)] and
    [d.Flatten()].  Of a task the file reads [Id()],
    [reflect.TypeOf(task).Name()], [dag.TaskExecuteSource] and
    [dag.TaskHash]; [version.Version] is a constant. *)
Variable Dag : Type.
Variable Dag_Attr_Id : Dag -> string.
Variable Dag_Flatten : Dag -> list dag.Task.
Variable TypeOf_Name : dag.Task -> string.
Variable TaskHash : dag.Task -> string.
Variable version_Version : string.

Context {S : Type} (tx : Tx S).

(** [Client.outdateDagTasks] *)
Definition outdateDagTasks (s : S) (dagId taskId currentInsertTs : string)
  : S * option error :=
  let '(s1, err) := Exec tx s (dagTaskOutdateQuery dagId taskId currentInsertTs) in
  match err with
  | Some e => (s1, Some e)
  | None => (s1, None)
  end.

(** [Client.insertDagTask] *)
Definition insertDagTask (s : S) (dagId : string) (task : dag.Task) (insertTs : string)
  : S * option error :=
  let tTypeName := TypeOf_Name task in
  let taskBody := dag.Task_ExecuteSource task in
  let taskHash := TaskHash task in
  let '(s1, err) :=
    Exec tx s
      (dagTaskInsertQuery dagId (dag.Task_Id task) 1 insertTs version_Version
         tTypeName taskHash taskBody) in
  match err with
  | Some e => (s1, Some e)
  | None => (s1, None)
  end.

(** [Client.insertSingleDagTask] *)
Definition insertSingleDagTask (s : S) (dagId : string) (task : dag.Task)
  : S * option error :=
  let '(s0, insertTs) := Now_Format tx s in
  let '(s1, uErr) := outdateDagTasks s0 dagId (dag.Task_Id task) insertTs in
  match uErr with
  | Some e => (s1, Some e)
  | None =>
      let '(s2, iErr) := insertDagTask s1 dagId task insertTs in
      match iErr with
      | Some e => (s2, Some e)
      | None => (s2, None)
      end
  end.

(** The loop of [InsertDagTasks] and what follows it. *)
Fixpoint insertEach (s : S) (dagId : string) (tasks : list dag.Task)
  : S * option error :=
  match tasks with
  | task :: rest =>
      let '(s1, iErr) := insertSingleDagTask s dagId task in
      match iErr with
      | Some _ =>
          let '(s2, _) := Rollback tx s1 in
          (s2, Some (errorString
                       "could not sync dag and dagtasks properly. SQL transaction was rollbacked"))
      | None => insertEach s1 dagId rest
      end
  | [] =>
      let '(s1, cErr) := Commit tx s in
      match cErr with
      | Some e => (s1, Some e)
      | None => (s1, None)
      end
  end.

(** [Client.InsertDagTasks], once [c.dbConn.Begin()] has returned the
    transaction [tx]; [Client_InsertDagTasks] below starts at [Begin]. *)
Definition InsertDagTasks (s : S) (d : Dag) : S * option error :=
  let dagId := Dag_Attr_Id d in
  insertEach s dagId (Dag_Flatten d).

(** [Client.ReadDagTask] *)
Definition ReadDagTask (s : S) (dagId taskId : string)
  : S * (DagTask * option dbdags.sqlError) :=
  let '(s1, scanned) := QueryRowScan tx s dagId taskId in
  match scanned with
  | inr dbdags.ErrNoRows => (s1, (zeroDagTask, Some dbdags.ErrNoRows))
  | inr scanErr => (s1, (zeroDagTask, Some scanErr))
  | inl row =>
      let dagtask :=
        {| DagId := rDagId row;
           TaskId := rTaskId row;
           IsCurrent := rIsCurrent row =? 1;
           InsertTs := "";
           Version := rVersion row;
           TaskTypeName := rTaskTypeName row;
           TaskBodyHash := rTaskBodyHash row;
           TaskBodySource := rTaskBodySource row |} in
      (s1, (dagtask, None))
  end.

(** The two statements of one task that is inserted at [insertTs]. *)
Definition sent (dagId : string) (task : dag.Task) (insertTs : string) : list Stmt :=
  [ dagTaskOutdateQuery dagId (dag.Task_Id task) insertTs;
    dagTaskInsertQuery dagId (dag.Task_Id task) 1 insertTs version_Version
      (TypeOf_Name task) (TaskHash task) (dag.Task_ExecuteSource task) ].

End DagTasks.

(** *** From [Begin] on *)

(** The connection [c.dbConn]: [Begin], whose error [InsertDagTasks] drops,
    and the clock and the transaction it returns when it succeeds. *)
Record Conn (S : Type) : Type := mkConn {
  Begin : S -> S * option error;
  begun : Tx S
}.
Arguments Begin {S} _ _.
Arguments begun {S} _.

Section Client.

Variable Dag : Type.
Variable Dag_Attr_Id : Dag -> string.
Variable Dag_Flatten : Dag -> list dag.Task.
Variable TypeOf_Name : dag.Task -> string.
Variable TaskHash : dag.Task -> string.
Variable version_Version : string.

Context {S : Type} (c : Conn S).

(** [Client.InsertDagTasks] from its first step, [tx, _ :=
    c.dbConn.Begin()]: when [Begin] fails [tx] is nil, and the call panics
    at the first use of it, [tx.Exec] in [outdateDagTasks] after the clock
    was read for the first task, or [tx.Commit] when the DAG has no
    task. *)
Definition Client_InsertDagTasks (s : S) (d : Dag) : sched.outcome S :=
  let '(s0, bErr) := Begin c s in
  match bErr with
  | Some _ =>
      match Dag_Flatten d with
      | [] => sched.Panicked dbdags.nilTx s0
      | _ :: _ =>
          let '(s1, _) := Now_Format (begun c) s0 in
          sched.Panicked dbdags.nilTx s1
      end
  | None =>
      let '(s1, err) :=
        InsertDagTasks Dag Dag_Attr_Id Dag_Flatten TypeOf_Name TaskHash
          version_Version (begun c) s0 d in
      sched.Returned err s1
  end.

End Client.

(** What the database was asked to do. *)
Inductive Event : Type :=
| evBegin
| evQueryRow (dagId taskId : string)
| evExec (stmt : Stmt)
| evCommit
| evRollback.

#[global] Instance Event_eq_dec : EqDecision Event.
Proof. solve_decision. Defined.

(** A clock and a database whose answers are any function of what the
    database was asked so far. *)
Record Answers : Type := mkAnswers {
  onBegin : list Event -> option error;
  onNow : list Event -> string;
  onQueryRow : list Event -> string -> string -> Row + dbdags.sqlError;
  onExec : list Event -> Stmt -> option error;
  onCommit : list Event -> option error;
  onRollback : list Event -> option error
}.

(** The transaction that records every request and answers as [a] says. *)
Definition recording (a : Answers) : Tx (list Event) :=
  {| Now_Format := fun h => (h, onNow a h);
     QueryRowScan := fun h dagId taskId =>
       (h ++ [evQueryRow dagId taskId], onQueryRow a h dagId taskId);
     Exec := fun h stmt => (h ++ [evExec stmt], onExec a h stmt);
     Commit := fun h => (h ++ [evCommit], onCommit a h);
     Rollback := fun h => (h ++ [evRollback], onRollback a h) |}.

(** The connection that records every request and answers as [a] says. *)
Definition recordingConn (a : Answers) : Conn (list Event) :=
  {| Begin := fun h => (h ++ [evBegin], onBegin a h);
     begun := recording a |}.

(** A table [dagtasks] that carries out every statement, with a clock that
    may read anything: the rows in insertion order, [SELECT ... WHERE dagId
    = ? AND taskId = ? AND IsCurrent = 1] scanned for its first row,
    [INSERT] adding a row, [UPDATE ... SET IsCurrent = 0 WHERE DagId = ? AND
    TaskId = ? AND InsertTs != ?] rewriting that column in the rows it
    selects.  The table has no key, so it stands for the database only
    where no two rows agree on [DagId], [TaskId] and [IsCurrent]. *)
Definition table (clock : list Row -> string) : Tx (list Row) :=
  {| Now_Format := fun rows => (rows, clock rows);
     QueryRowScan := fun rows dagId taskId =>
       (rows,
        match
          List.find
            (fun r => bool_decide (rDagId r = dagId /\ rTaskId r = taskId
                                   /\ rIsCurrent r = 1)) rows
        with
        | Some r => inl r
        | None => inr dbdags.ErrNoRows
        end);
     Exec := fun rows stmt =>
       match stmt with
       | dagTaskInsertQuery dagId taskId isCurrent insertTs version tTypeName
           taskHash taskBody =>
           (rows ++ [mkRow dagId taskId isCurrent insertTs version tTypeName
                       taskHash taskBody], None)
       | dagTaskOutdateQuery dagId taskId currentInsertTs =>
           ((fun r =>
               if bool_decide (rDagId r = dagId /\ rTaskId r = taskId
                               /\ rInsertTs r <> currentInsertTs)
               then mkRow (rDagId r) (rTaskId r) 0 (rInsertTs r) (rVersion r)
                      (rTaskTypeName r) (rTaskBodyHash r) (rTaskBodySource r)
               else r) <$> rows, None)
       end;
     Commit := fun rows => (rows, None);
     Rollback := fun rows => (rows, None) |}.

End dbdagtasks.

(** ** Package dag: the tasks of a DAG *)
Module dagTasks.
Import dag.

(** [ErrTaskNotFoundInDag] *)
Definition ErrTaskNotFoundInDag : error :=
  errorString "task was not found in the DAG".

(** [Node.Task] *)
Definition Node_Task (n : Node) : Task :=
  match n with mkNode task _ => task end.

Section Tasks.

(** [NodeInfo], of which these functions read the field [Node], and
    [Node.Flatten], a method on [*Node] that [GetTask] also calls on a nil
    root; both are declared in another file of the package. *)
Variable NodeInfo : Type.
Variable NodeInfo_Node : NodeInfo -> Node.
Variable Node_Flatten : option Node -> sched.must (list NodeInfo).

(** The loop of [GetTask]. *)
Fixpoint firstWithId (nodesInfo : list NodeInfo) (taskId : string) : result Task :=
  match nodesInfo with
  | ni :: rest =>
      if bool_decide (Task_Id (Node_Task (NodeInfo_Node ni)) = taskId)
      then Ok (Node_Task (NodeInfo_Node ni))
      else firstWithId rest taskId
  | [] => Err ErrTaskNotFoundInDag
  end.

(** [Dag.GetTask] *)
Definition GetTask (d : Dag) (taskId : string) : sched.must (result Task) :=
  match Node_Flatten (Dag_Root d) with
  | sched.Panic msg => sched.Panic msg
  | sched.Value nodesInfo => sched.Value (firstWithId nodesInfo taskId)
  end.

(** [Dag.Flatten] *)
Definition Flatten (d : Dag) : sched.must (list Task) :=
  match Dag_Root d with
  | None => sched.Value []
  | Some root =>
      match Node_Flatten (Some root) with
      | sched.Panic msg => sched.Panic msg
      | sched.Value nodesInfo =>
          sched.Value ((fun ni => Node_Task (NodeInfo_Node ni)) <$> nodesInfo)
      end
  end.

(** [Dag.FlattenNodes] *)
Definition FlattenNodes (d : Dag) : sched.must (list NodeInfo) :=
  match Dag_Root d with
  | None => sched.Value []
  | Some root => Node_Flatten (Some root)
  end.

End Tasks.

End dagTasks.

(** A stand-in for [Node.Flatten], used to run [GetTask] on examples: a
    node comes before its descendants, and a nil receiver panics. *)
Module sampleTasks.

Fixpoint descend (n : dag.Node) : list dag.Node :=
  match n with
  | dag.mkNode _ children => n :: flat_map descend children
  end.

Definition Node_Flatten (root : option dag.Node) : sched.must (list dag.Node) :=
  match root with
  | Some n => sched.Value (descend n)
  | None => sched.Panic "invalid memory address or nil pointer dereference"
  end.

(** The tasks of a DAG in that order, and stand-ins for the type name and
    the hash of a task and for the clock. *)
Definition Flatten (d : dag.Dag) : list dag.Task :=
  match dag.Dag_Root d with
  | Some n => dagTasks.Node_Task <$> descend n
  | None => []
  end.

Definition TypeOf_Name (task : dag.Task) : string := "printTask".

Definition TaskHash (task : dag.Task) : string :=
  hex.EncodeToString (sample.Sum256 (dag.bytes (dag.Task_ExecuteSource task))).

Definition clock (rows : list dbdagtasks.Row) : string := "2023-10-05T12:00:00".

End sampleTasks.

Import time_ dag sched.

(** ** Sample inputs *)

(** Two DAGs used below: one built root first with a task tree, one built
    attributes first without tasks, both with the same attributes and
    schedule. *)
Definition hourly : Schedule :=
  Fixed {| Interval := 1 * Hour; Start := Date 2023 October 5 12 0 0 0 |}.

Definition tagged : Attr := {| CatchUp := true; Tags := Some ["etl"; "daily"]%string |}.

Definition withTasks : Dag :=
  Done (AddAttributes
          (AddSchedule
             (AddRoot (New "a") (mkNode (mkTask "start" "fmt.Println(1)")
                                   [mkNode (mkTask "end" "fmt.Println(2)") []]))
             hourly)
          tagged).

Definition withoutTasks : Dag :=
  Done (AddSchedule (AddAttributes (New "b") tagged) hourly).

(** A task key, a state, and three [dagruntasks] tables holding its row:
    well formed, with a status that does not parse, and with a status
    timestamp that does not parse. *)
Definition taskKey : DagRunTask :=
  {| DagRunTask_DagId := "dag1"; DagRunTask_AtTime := Date 2023 October 5 14 0 0 0;
     DagRunTask_TaskId := "task1" |}.

Definition runKey : DagRun :=
  {| DagRun_DagId := "dag1"; DagRun_AtTime := Date 2023 October 5 14 0 0 0 |}.

Definition succeeded : DagRunTaskState :=
  {| Status := Success; StatusUpdateTs := Date 2023 October 5 14 0 0 0 |}.

Definition started : DagRunTaskState :=
  {| Status := Running; StatusUpdateTs := Date 2023 October 5 12 0 0 0 |}.

Definition taskRow (status statusUpdateTs : string) : db.DagRunTask :=
  db.mkDagRunTask "dag1" "2023-10-05T14:00:00Z" "task1" "2023-10-05T14:00:00Z"
    status statusUpdateTs "0.0.1".

Definition goodRows : list db.DagRunTask :=
  [taskRow "SUCCESS" "2023-10-05T14:00:00Z"].

Definition badStatusRows : list db.DagRunTask :=
  [taskRow "DONE" "2023-10-05T14:00:00Z"].

Definition badTimestampRows : list db.DagRunTask :=
  [taskRow "SUCCESS" "05/10/2023 14:00"].

(** [PullFromDatabase] against one of the tables, with the sample timestamp
    format. *)
Definition pullFrom {K : Type} `{cacheableKeys K} (rows : list db.DagRunTask)
    (sc : simpleCache K DagRunTaskState) (key : K)
    : outcome (simpleCache K DagRunTaskState) :=
  PullFromDatabase (db.ReadDagRunTaskStatus rows) stringToDagRunTaskStatus
    sample.ToString sample.FromStringMust sc key.

(** The loop of [TestShouldBeScheduledExactlyOnScheduleTime]: the function
    is called again and again at the time the map holds for the DAG. *)
Fixpoint onScheduleTime (d : Dag) (m : gmap Id (option Time)) (currTime : Time)
    (iterations : nat) : list (bool * Time) :=
  match iterations with
  | O => []
  | S n =>
      let '(shouldBe, execTime, m') := shouldBeSheduled d m currTime in
      (shouldBe, execTime)
        :: match m' !! Dag_Id d with
           | Some (Some nextCurrTime) => onScheduleTime d m' nextCurrTime n
           | _ => []
           end
  end.

Module Simple := sched.TestNextScheduleForDagRunsSimple.
Module WithCatchUp := sched.TestNextScheduleForDagRunsSimpleWithCatchUp.
Module TrySchedule := sched.TestTryScheduleDagSimple.
Module ShouldBe := sched.TestShouldBeScheduledSimple.
Module ManyDags := sched.TestNextScheduleForDagRunsManyDagsSimple.
Module NoSchedule := sched.TestNextScheduleForDagRunsNoSchedule.

(** * Instants and hexadecimal encoding *)

Lemma Compare_eq t u : Compare t u = 0 <-> t = u.
Proof. unfold Compare. destruct (Z.ltb_spec t u), (Z.ltb_spec u t); lia. Qed.

Lemma Compare_ge t u : 0 <= Compare t u <-> u <= t.
Proof. unfold Compare. destruct (Z.ltb_spec t u), (Z.ltb_spec u t); lia. Qed.

Example unix_epoch : Date 1970 1 1 0 0 0 0 = 0.
Proof. reflexivity. Qed.

(** 2023-10-05T12:00:00Z is 1696507200 seconds after the epoch. *)
Example test_start : Date 2023 October 5 12 0 0 0 = 1696507200 * Second.
Proof. reflexivity. Qed.

Lemma EncodeToString_length src :
  String.length (hex.EncodeToString src) = (2 * List.length src)%nat.
Proof. induction src as [|b rest IH]; simpl; [reflexivity | rewrite IH; lia]. Qed.

Example encode_sample :
  hex.EncodeToString [Byte.x00; Byte.x1f; Byte.xa5; Byte.xff] = "001fa5ff"%string.
Proof. reflexivity. Qed.

(** * Properties of package [dag] *)

Section HashingFacts.
Variable json_Marshal : Attr -> result (list Byte.byte).
Variable Sum256 : list Byte.byte -> list Byte.byte.
Variable Schedule_String : Schedule -> string.
Variable ToString : Time -> string.

Lemma HashDagMeta_meta d1 d2 :
  meta d1 = meta d2 ->
  HashDagMeta json_Marshal Sum256 Schedule_String ToString d1
  = HashDagMeta json_Marshal Sum256 Schedule_String ToString d2.
Proof.
  unfold meta, HashDagMeta. intros Hm.
  injection Hm as Ha Hs. rewrite Ha, Hs. reflexivity.
Qed.

(** On success the result is the digest of the three parts written one
    after the other. *)
Lemma HashDagMeta_ok d attrJson :
  json_Marshal (Dag_Attr d) = Ok attrJson ->
  HashDagMeta json_Marshal Sum256 Schedule_String ToString d =
    (hex.EncodeToString
       (Sum256 (attrJson
                ++ bytes (from_option Schedule_String EmptyString (Dag_Schedule d))
                ++ bytes (from_option (fun s => ToString (StartTime s))
                            EmptyString (Dag_Schedule d)))),
     []).
Proof.
  unfold HashDagMeta. intros ->.
  destruct (Dag_Schedule d); simpl; unfold Sum, Write; simpl;
    rewrite <- ?app_assoc; reflexivity.
Qed.

End HashingFacts.

(** The builder steps touch one field each, so the order of [AddRoot],
    [AddSchedule] and [AddAttributes] does not matter. *)
Lemma builder_order d node sched attr :
  AddAttributes (AddSchedule (AddRoot d node) sched) attr
  = AddRoot (AddSchedule (AddAttributes d attr) sched) node
  /\ AddAttributes (AddSchedule (AddRoot d node) sched) attr
     = AddSchedule (AddRoot (AddAttributes d attr) node) sched.
Proof. split; reflexivity. Qed.

Lemma meta_builder id node sched attr :
  meta (Done (AddAttributes (AddSchedule (AddRoot (New id) node) sched) attr))
  = (attr, Some sched).
Proof. reflexivity. Qed.

Lemma Next_before_start s after :
  after < StartTime s -> Next s after = StartTime s.
Proof.
  unfold Next. intros Hlt.
  destruct (Z.ltb_spec after (StartTime s)); [reflexivity | lia].
Qed.

(** [Next] returns an occurrence, strictly after its argument, and the
    closest such one. *)
Lemma Next_occurrence s after :
  0 < Schedule_Interval s ->
  exists k, 0 <= k /\ Next s after = occurrence s k.
Proof.
  intros Hpos. unfold Next.
  destruct (Z.ltb_spec after (StartTime s)) as [Hlt | Hge].
  - exists 0. unfold occurrence. split; lia.
  - exists ((after - StartTime s) / Schedule_Interval s + 1). split; [|reflexivity].
    assert (0 <= (after - StartTime s) / Schedule_Interval s)
      by (apply Z.div_pos; lia).
    lia.
Qed.

Lemma Next_after s after :
  0 < Schedule_Interval s -> after < Next s after.
Proof.
  intros Hpos. unfold Next, occurrence.
  destruct (Z.ltb_spec after (StartTime s)) as [Hlt | Hge]; [assumption |].
  pose proof (Z.div_mod (after - StartTime s) (Schedule_Interval s)) as Hdm.
  pose proof (Z.mod_pos_bound (after - StartTime s) (Schedule_Interval s) Hpos).
  nia.
Qed.


(** An occurrence is followed by the one an interval later. *)
Lemma Next_of_occurrence s k :
  0 < Schedule_Interval s -> 0 <= k ->
  Next s (occurrence s k) = occurrence s k + Schedule_Interval s.
Proof.
  intros Hpos Hk. unfold Next, occurrence.
  destruct (Z.ltb_spec (StartTime s + k * Schedule_Interval s) (StartTime s)); [nia |].
  replace (StartTime s + k * Schedule_Interval s - StartTime s)
    with (k * Schedule_Interval s) by lia.
  rewrite Z.div_mul by lia. lia.
Qed.


(** C9: for every DAG whose Root is nil, [HashTasks] returns (it has no error
    result and takes no other path) the hex encoding of the SHA-256 digest of
    the literal NO TASKS, so any two rootless DAGs, whatever their ids,
    schedules and attributes, get the same value. *)
Theorem HashTasks_rootless
    (Sum256 : list Byte.byte -> list Byte.byte) (Node_Hash : Node -> string)
    (d1 d2 : Dag) :
  Dag_Root d1 = None ->
  Dag_Root d2 = None ->
  HashTasks Sum256 Node_Hash d1 = hex.EncodeToString (Sum256 (bytes "NO TASKS"))
  /\ HashTasks Sum256 Node_Hash d1 = HashTasks Sum256 Node_Hash d2
  /\ String.length (HashTasks Sum256 Node_Hash d1)
     = (2 * List.length (Sum256 (bytes "NO TASKS")))%nat.
Proof.
  intros Hroot1 Hroot2.
  assert (Hfixed : forall d, Dag_Root d = None ->
            HashTasks Sum256 Node_Hash d
            = hex.EncodeToString (Sum256 (bytes "NO TASKS"))).
  { intros d Hroot. unfold HashTasks. rewrite Hroot. reflexivity. }
  split; [apply Hfixed; exact Hroot1 |].
  split.
  - rewrite !Hfixed by assumption. reflexivity.
  - rewrite Hfixed by assumption. apply EncodeToString_length.
Qed.

(** Two rootless DAGs, one scheduled and tagged and one freshly made, with
    the stand-in digest of the samples. *)
Lemma HashTasks_rootless_witness :
  Dag_Id withoutTasks <> Dag_Id (New "c")
  /\ Dag_Schedule withoutTasks <> Dag_Schedule (New "c")
  /\ HashTasks sample.Sum256 sample.Node_Hash withoutTasks
     = hex.EncodeToString (sample.Sum256 (bytes "NO TASKS"))
  /\ HashTasks sample.Sum256 sample.Node_Hash withoutTasks
     = HashTasks sample.Sum256 sample.Node_Hash (New "c").
Proof.
  split; [discriminate |]. split; [discriminate |].
  destruct (HashTasks_rootless sample.Sum256 sample.Node_Hash withoutTasks
              (New "c") eq_refl eq_refl) as (Hfixed & Hsame & _).
  split; [exact Hfixed | exact Hsame].
Defined.

(** C8: two DAGs with equal Attr and equal Schedule (both may be without a
    schedule) get the same [HashDagMeta] result, whatever their ids and task
    trees: the result is a function of (Attr, Schedule) alone. *)
Theorem HashDagMeta_depends_on_meta_only
    (json_Marshal : Attr -> result (list Byte.byte))
    (Sum256 : list Byte.byte -> list Byte.byte)
    (Schedule_String : Schedule -> string) (ToString : Time -> string)
    (d1 d2 : Dag) :
  Dag_Attr d1 = Dag_Attr d2 ->
  Dag_Schedule d1 = Dag_Schedule d2 ->
  HashDagMeta json_Marshal Sum256 Schedule_String ToString d1
  = HashDagMeta json_Marshal Sum256 Schedule_String ToString d2.
Proof.
  intros Hattr Hsched. apply HashDagMeta_meta.
  unfold meta. rewrite Hattr, Hsched. reflexivity.
Qed.

(** The two sample DAGs differ in id, task tree and builder order and have
    the same metadata hash. *)
Lemma HashDagMeta_depends_on_meta_only_witness :
  Dag_Id withTasks <> Dag_Id withoutTasks
  /\ Dag_Root withTasks <> Dag_Root withoutTasks
  /\ HashDagMeta sample.json_Marshal sample.Sum256 sample.Schedule_String
       sample.ToString withTasks
     = HashDagMeta sample.json_Marshal sample.Sum256 sample.Schedule_String
         sample.ToString withoutTasks.
Proof.
  split; [discriminate |]. split; [discriminate |].
  apply (HashDagMeta_depends_on_meta_only sample.json_Marshal sample.Sum256
           sample.Schedule_String sample.ToString withTasks withoutTasks);
    reflexivity.
Defined.

(** * Properties of the state cache *)

(** The status strings of the spec parse back to their status. *)
Lemma stringToDagRunTaskStatus_String s :
  stringToDagRunTaskStatus (DagRunTaskStatus_String s) = Ok s.
Proof. destruct s; reflexivity. Qed.

Lemma Add_absent {K V : Type} `{cacheableKeys K} (sc : simpleCache K V) k v :
  data sc !! k = None -> Add sc k v = (None, upsert sc k v).
Proof. intros Hk. unfold Add. rewrite Hk. reflexivity. Qed.

Lemma Update_present {K V : Type} `{cacheableKeys K} (sc : simpleCache K V) k v :
  is_Some (data sc !! k) -> Update sc k v = (None, upsert sc k v).
Proof. intros [v0 Hk]. unfold Update. rewrite Hk. reflexivity. Qed.

Lemma Get_upsert {K V : Type} `{cacheableKeys K} (sc : simpleCache K V) k v :
  Get (upsert sc k v) k = Ok v.
Proof. unfold Get, upsert. simpl. rewrite lookup_insert_eq. reflexivity. Qed.

Lemma Get_upsert_ne {K V : Type} `{cacheableKeys K} (sc : simpleCache K V) k k' v :
  k <> k' -> Get (upsert sc k v) k' = Get sc k'.
Proof. intros Hne. unfold Get, upsert. simpl. rewrite lookup_insert_ne by done. reflexivity. Qed.

(** C7: on an absent key [Add] succeeds and [Get] then returns the value
    added (other keys read as before), while [Get] and [Update] fail with
    [ErrCacheKeyDoesNotExist] and [Remove] changes nothing; on a present key
    [Add] fails with [ErrCacheKeyExists] and the cache, so the stored value,
    stays as it was. *)
Theorem simpleCache_Add_Get_Update_Remove {K V : Type} `{cacheableKeys K}
    (sc : simpleCache K V) (k : K) (v : V) :
  (data sc !! k = None ->
     (Add sc k v).1 = None
     /\ Get (Add sc k v).2 k = Ok v
     /\ (forall k', k <> k' -> Get (Add sc k v).2 k' = Get sc k')
     /\ Get sc k = Err ErrCacheKeyDoesNotExist
     /\ Update sc k v = (Some ErrCacheKeyDoesNotExist, sc)
     /\ Remove sc k = sc)
  /\ (forall v0, data sc !! k = Some v0 ->
        Add sc k v = (Some ErrCacheKeyExists, sc)
        /\ Get (Add sc k v).2 k = Ok v0).
Proof.
  split.
  - intros Habsent. rewrite (Add_absent sc k v Habsent). simpl.
    split; [reflexivity |].
    split; [apply Get_upsert |].
    split; [intros k' Hne; apply Get_upsert_ne; exact Hne |].
    unfold Get, Update, Remove. rewrite Habsent.
    split; [reflexivity |]. split; [reflexivity |].
    destruct sc as [m]. simpl in *. f_equal. apply delete_id. exact Habsent.
  - intros v0 Hpresent. unfold Add, Get. rewrite Hpresent. simpl.
    rewrite Hpresent. split; reflexivity.
Qed.

Lemma simpleCache_Add_Get_Update_Remove_witness :
  Get (Add (newSimpleCache : simpleCache DagRunTask DagRunTaskState)
         taskKey succeeded).2 taskKey = Ok succeeded
  /\ Remove (newSimpleCache : simpleCache DagRunTask DagRunTaskState) taskKey
     = newSimpleCache
  /\ Add (upsert newSimpleCache taskKey started) taskKey succeeded
     = (Some ErrCacheKeyExists, upsert newSimpleCache taskKey started).
Proof.
  destruct (simpleCache_Add_Get_Update_Remove
              (newSimpleCache : simpleCache DagRunTask DagRunTaskState)
              taskKey succeeded) as [Habsent _].
  destruct (simpleCache_Add_Get_Update_Remove
              (upsert newSimpleCache taskKey started) taskKey succeeded)
    as [_ Hpresent].
  destruct (Habsent (lookup_empty taskKey)) as (_ & Hget & _ & _ & _ & Hremove).
  destruct (Hpresent started (lookup_insert_eq _ taskKey started)) as [Hadd _].
  split; [exact Hget |]. split; [exact Hremove | exact Hadd].
Defined.

(** C6, as the code has it: for a DagRunTask key [PullFromDatabase] reads
    (status, statusUpdateTs); a failed read or a failed status parse is
    returned and the cache is unchanged; when the status parses and the
    timestamp is one [timeutils.FromStringMust] converts, the parsed state is
    upserted under the key ([Add] when absent, [Update] when present) and nil
    is returned; for a key that is no DagRunTask the unsupported-key-type
    error is returned and the cache is unchanged. *)
Theorem PullFromDatabase_cases {K V : Type} `{cacheableKeys K} `{cacheableValues V}
    (Read : string -> string -> string -> result (string * string))
    (parse : string -> result DagRunTaskStatus)
    (ToString : Time -> string) (FromStringMust : string -> must Time)
    (sc : simpleCache K V) (key : K) :
  let pull := PullFromDatabase Read parse ToString FromStringMust sc key in
  (forall obj, toAny key = anyDagRunTask obj ->
     let read := Read (DagRunTask_DagId obj) (ToString (DagRunTask_AtTime obj))
                   (DagRunTask_TaskId obj) in
     (forall err, read = Err err -> pull = Returned (Some err) sc)
     /\ (forall statusStr ts sErr,
           read = Ok (statusStr, ts) -> parse statusStr = Err sErr ->
           pull = Returned (Some sErr) sc)
     /\ (forall statusStr ts status t,
           read = Ok (statusStr, ts) -> parse statusStr = Ok status ->
           FromStringMust ts = Value t ->
           let v := ofState {| Status := status; StatusUpdateTs := t |} in
           (data sc !! key = None ->
              pull = Returned (Add sc key v).1 (Add sc key v).2)
           /\ (is_Some (data sc !! key) ->
                 pull = Returned (Update sc key v).1 (Update sc key v).2)
           /\ pull = Returned None (upsert sc key v)
           /\ Get (upsert sc key v) key = Ok v))
  /\ ((forall obj, toAny key <> anyDagRunTask obj) ->
        pull = Returned (Some unsupportedKeyType) sc).
Proof.
  intros pull. subst pull. unfold PullFromDatabase. split.
  - intros obj ->. cbv zeta. split; [| split].
    + intros err ->. reflexivity.
    + intros statusStr ts sErr -> ->. reflexivity.
    + intros statusStr ts status t -> -> Hts.
      rewrite Hts.
      split; [| split; [| split]].
      * intros Habsent. unfold Get. rewrite Habsent.
        destruct (Add sc key _); reflexivity.
      * intros [v0 Hpresent]. unfold Get. rewrite Hpresent.
        destruct (Update sc key _); reflexivity.
      * unfold Get, Add, Update, upsert.
        destruct (data sc !! key); reflexivity.
      * apply Get_upsert.
  - intros Hother. destruct (toAny key) as [run | obj]; [reflexivity |].
    destruct (Hother obj). reflexivity.
Qed.

Lemma PullFromDatabase_cases_witness :
  pullFrom [] newSimpleCache taskKey
    = Returned (Some (errorString "sql: no rows in result set")) newSimpleCache
  /\ pullFrom badStatusRows newSimpleCache taskKey
     = Returned (Some (errorString "invalid dag run task status")) newSimpleCache
  /\ pullFrom goodRows newSimpleCache taskKey
     = Returned None (upsert newSimpleCache taskKey succeeded)
  /\ pullFrom goodRows (upsert newSimpleCache taskKey started) taskKey
     = Returned None (upsert (upsert newSimpleCache taskKey started) taskKey succeeded)
  /\ pullFrom goodRows newSimpleCache runKey
     = Returned (Some unsupportedKeyType) newSimpleCache.
Proof.
  unfold pullFrom.
  pose proof (PullFromDatabase_cases (db.ReadDagRunTaskStatus [])
                stringToDagRunTaskStatus sample.ToString sample.FromStringMust
                newSimpleCache taskKey) as [Hnone _].
  pose proof (PullFromDatabase_cases (db.ReadDagRunTaskStatus badStatusRows)
                stringToDagRunTaskStatus sample.ToString sample.FromStringMust
                newSimpleCache taskKey) as [Hstatus _].
  pose proof (PullFromDatabase_cases (db.ReadDagRunTaskStatus goodRows)
                stringToDagRunTaskStatus sample.ToString sample.FromStringMust
                newSimpleCache taskKey) as [Hadd _].
  pose proof (PullFromDatabase_cases (db.ReadDagRunTaskStatus goodRows)
                stringToDagRunTaskStatus sample.ToString sample.FromStringMust
                (upsert newSimpleCache taskKey started) taskKey) as [Hupd _].
  pose proof (PullFromDatabase_cases (db.ReadDagRunTaskStatus goodRows)
                stringToDagRunTaskStatus sample.ToString sample.FromStringMust
                newSimpleCache runKey) as [_ Hrun].
  cbv zeta in *.
  split; [| split; [| split; [| split]]].
  - apply (Hnone taskKey eq_refl). reflexivity.
  - apply (Hstatus taskKey eq_refl) with (statusStr := "DONE"%string)
      (ts := "2023-10-05T14:00:00Z"%string); reflexivity.
  - apply (Hadd taskKey eq_refl) with (statusStr := "SUCCESS"%string)
      (ts := "2023-10-05T14:00:00Z"%string) (status := Success)
      (t := Date 2023 October 5 14 0 0 0); reflexivity.
  - apply (Hupd taskKey eq_refl) with (statusStr := "SUCCESS"%string)
      (ts := "2023-10-05T14:00:00Z"%string) (status := Success)
      (t := Date 2023 October 5 14 0 0 0); reflexivity.
  - apply Hrun. intros obj. discriminate.
Defined.

(** C6 as stated fails: the read succeeds and the status parses, but the
    status timestamp is one the conversion panics on; the call neither
    returns an error nor upserts, it panics, and the key is still absent. *)
Lemma PullFromDatabase_neither_error_nor_upsert :
  db.ReadDagRunTaskStatus badTimestampRows "dag1"
      (sample.ToString (Date 2023 October 5 14 0 0 0)) "task1"
    = Ok ("SUCCESS", "05/10/2023 14:00")%string
  /\ stringToDagRunTaskStatus "SUCCESS" = Ok Success
  /\ pullFrom badTimestampRows newSimpleCache taskKey
     = Panicked "cannot parse timestamp 05/10/2023 14:00" newSimpleCache
  /\ Get (newSimpleCache : simpleCache DagRunTask DagRunTaskState) taskKey
     = Err ErrCacheKeyDoesNotExist.
Proof. repeat split. Qed.

(** C10: for a DagRunTask key whose read succeeds, a status string that does
    not parse is returned as an error, while a status that parses followed
    by a timestamp on which [timeutils.FromStringMust] panics makes
    [PullFromDatabase] panic: nothing catches it, no error is returned, and
    the cache is as it was. *)
Theorem PullFromDatabase_timestamp_panics {K V : Type}
    `{cacheableKeys K} `{cacheableValues V}
    (Read : string -> string -> string -> result (string * string))
    (parse : string -> result DagRunTaskStatus)
    (ToString : Time -> string) (FromStringMust : string -> must Time)
    (sc : simpleCache K V) (key : K) (obj : DagRunTask) (statusStr ts : string) :
  toAny key = anyDagRunTask obj ->
  Read (DagRunTask_DagId obj) (ToString (DagRunTask_AtTime obj))
    (DagRunTask_TaskId obj) = Ok (statusStr, ts) ->
  let pull := PullFromDatabase Read parse ToString FromStringMust sc key in
  (forall sErr, parse statusStr = Err sErr -> pull = Returned (Some sErr) sc)
  /\ (forall status msg, parse statusStr = Ok status ->
        FromStringMust ts = Panic msg ->
        pull = Panicked msg sc /\ forall err sc', pull <> Returned err sc').
Proof.
  intros Hkey Hread pull. subst pull. unfold PullFromDatabase.
  rewrite Hkey, Hread. split.
  - intros sErr ->. reflexivity.
  - intros status msg -> ->. split; [reflexivity |].
    intros err sc'. discriminate.
Qed.

Lemma PullFromDatabase_timestamp_panics_witness :
  pullFrom badTimestampRows newSimpleCache taskKey
    = Panicked "cannot parse timestamp 05/10/2023 14:00" newSimpleCache
  /\ pullFrom badStatusRows newSimpleCache taskKey
     = Returned (Some (errorString "invalid dag run task status")) newSimpleCache.
Proof.
  unfold pullFrom. split.
  - refine (proj1 (proj2 (PullFromDatabase_timestamp_panics
             (db.ReadDagRunTaskStatus badTimestampRows) stringToDagRunTaskStatus
             sample.ToString sample.FromStringMust newSimpleCache taskKey taskKey
             "SUCCESS" "05/10/2023 14:00" eq_refl eq_refl)
             Success "cannot parse timestamp 05/10/2023 14:00" eq_refl eq_refl)).
  - refine (proj1 (PullFromDatabase_timestamp_panics
             (db.ReadDagRunTaskStatus badStatusRows) stringToDagRunTaskStatus
             sample.ToString sample.FromStringMust newSimpleCache taskKey taskKey
             "DONE" "2023-10-05T14:00:00Z" eq_refl eq_refl)
             (errorString "invalid dag run task status") eq_refl).
Defined.

(** * Properties of the scheduling step *)

Lemma moreRecent_trans : Transitive moreRecent.
Proof. intros x y z. unfold moreRecent. lia. Qed.

Lemma moreRecent_total : Total moreRecent.
Proof. intros x y. unfold moreRecent. lia. Qed.

#[local] Existing Instance moreRecent_trans.
#[local] Existing Instance moreRecent_total.

(** [lastRun] is the latest of the runs recorded for the DAG. *)
Lemma lastRun_Some c dagId t :
  lastRun c dagId = Some t ->
  {| DagRun_DagId := dagId; DagRun_AtTime := t |} ∈ c
  /\ forall r, r ∈ c -> DagRun_DagId r = dagId -> DagRun_AtTime r <= t.
Proof.
  unfold lastRun, ReadDagRuns.
  pose proof (StronglySorted_merge_sort moreRecent
                (filter (fun r => DagRun_DagId r = dagId) c)) as Hsorted.
  pose proof (merge_sort_Permutation moreRecent
                (filter (fun r => DagRun_DagId r = dagId) c)) as Hperm.
  destruct (merge_sort moreRecent (filter (fun r => DagRun_DagId r = dagId) c))
    as [| r rest]; simpl; [discriminate |].
  intros [= <-].
  assert (Hin : forall r', r' ∈ c -> DagRun_DagId r' = dagId -> r' ∈ r :: rest).
  { intros r' Hc Hid. rewrite Hperm. apply list_elem_of_filter. done. }
  assert (Hr : r ∈ filter (fun r => DagRun_DagId r = dagId) c).
  { rewrite <- Hperm. apply elem_of_cons. left. reflexivity. }
  apply list_elem_of_filter in Hr as [Hid Hc]. split.
  - destruct r as [i a]. simpl in *. subst i. exact Hc.
  - intros r' Hc' Hid'. specialize (Hin r' Hc' Hid').
    apply elem_of_cons in Hin as [-> | Hrest]; [lia |].
    apply StronglySorted_inv in Hsorted as [_ Hall].
    rewrite Forall_forall in Hall. exact (Hall r' Hrest).
Qed.

Lemma lastRun_None c dagId :
  lastRun c dagId = None <-> forall r, r ∈ c -> DagRun_DagId r <> dagId.
Proof.
  unfold lastRun, ReadDagRuns.
  pose proof (merge_sort_Permutation moreRecent
                (filter (fun r => DagRun_DagId r = dagId) c)) as Hperm.
  destruct (merge_sort moreRecent (filter (fun r => DagRun_DagId r = dagId) c))
    as [| r rest]; simpl; split.
  - intros _ r Hc Hid.
    assert (Hr : r ∈ filter (fun r => DagRun_DagId r = dagId) c)
      by (apply list_elem_of_filter; done).
    rewrite <- Hperm in Hr. apply elem_of_nil in Hr. exact Hr.
  - reflexivity.
  - discriminate.
  - intros Hno. exfalso.
    assert (Hr : r ∈ filter (fun r => DagRun_DagId r = dagId) c)
      by (rewrite <- Hperm; apply elem_of_cons; left; reflexivity).
    apply list_elem_of_filter in Hr as [Hid Hc]. exact (Hno r Hc Hid).
Qed.

Lemma lastRun_singleton dagId t :
  lastRun [ {| DagRun_DagId := dagId; DagRun_AtTime := t |} ] dagId = Some t.
Proof.
  unfold lastRun, ReadDagRuns.
  rewrite filter_cons_True by reflexivity. reflexivity.
Qed.

(** Each DAG of the list gets its own entry. *)
Lemma nextScheduleForDagRuns_fold dags currentTime c
    (m : gmap Id (option Time)) dagId :
  dagId ∉ Dag_Id <$> dags ->
  foldl (fun m d => <[Dag_Id d := nextSchedule d currentTime c]> m) m dags !! dagId
  = m !! dagId.
Proof.
  revert m. induction dags as [| d dags IH]; intros m Hnot; simpl; [reflexivity |].
  rewrite fmap_cons in Hnot. apply not_elem_of_cons in Hnot as [Hne Hnot].
  rewrite IH by exact Hnot. apply lookup_insert_ne. congruence.
Qed.

Lemma nextScheduleForDagRuns_lookup dags currentTime c d :
  NoDup (Dag_Id <$> dags) -> d ∈ dags ->
  nextScheduleForDagRuns dags currentTime c !! Dag_Id d
  = Some (nextSchedule d currentTime c).
Proof.
  unfold nextScheduleForDagRuns. generalize (∅ : gmap Id (option Time)).
  induction dags as [| x dags IH]; intros m Hnodup Hin; simpl.
  - apply elem_of_nil in Hin. destruct Hin.
  - rewrite fmap_cons in Hnodup. apply NoDup_cons in Hnodup as [Hfresh Hnodup].
    apply elem_of_cons in Hin as [-> | Hin].
    + rewrite nextScheduleForDagRuns_fold by exact Hfresh.
      apply lookup_insert_eq.
    + apply IH; assumption.
Qed.

Lemma nextScheduleForDagRuns_singleton d currentTime c :
  nextScheduleForDagRuns [d] currentTime c !! Dag_Id d
  = Some (nextSchedule d currentTime c).
Proof. unfold nextScheduleForDagRuns. simpl. apply lookup_insert_eq. Qed.

(** The three cases of [nextSchedule] for a DAG with a schedule. *)
Lemma nextSchedule_first_run d sched currentTime c :
  Dag_Schedule d = Some sched -> lastRun c (Dag_Id d) = None ->
  nextSchedule d currentTime c = Some (StartTime sched).
Proof. unfold nextSchedule. intros -> ->. reflexivity. Qed.

Lemma nextSchedule_CatchUp d sched currentTime c latest :
  Dag_Schedule d = Some sched -> CatchUp (Dag_Attr d) = true ->
  lastRun c (Dag_Id d) = Some latest ->
  nextSchedule d currentTime c = Some (latest + Schedule_Interval sched).
Proof. unfold nextSchedule. intros -> -> ->. reflexivity. Qed.


Lemma nextSchedule_no_schedule d currentTime c :
  Dag_Schedule d = None -> nextSchedule d currentTime c = None.
Proof. unfold nextSchedule. intros ->. reflexivity. Qed.

(** The occurrence the sentence of spec 4.5 selects for a DAG without
    CatchUp, when it selects one, is the occurrence one interval before the
    one the schedule's [Next] gives for the current time. *)
Lemma skipAheadBySpec_one_interval_early sched currentTime latest occ :
  0 < Schedule_Interval sched ->
  skipAheadBySpec sched currentTime latest = Some occ ->
  Next sched currentTime = occ + Schedule_Interval sched
  /\ occ <= currentTime < Next sched currentTime.
Proof.
  intros Hpos. unfold skipAheadBySpec, latestOccurrence, Next, occurrence.
  destruct (Z.ltb_spec currentTime (StartTime sched)) as [Hlt | Hge];
    [discriminate |].
  destruct (Z.ltb_spec latest
              (StartTime sched
               + (currentTime - StartTime sched) / Schedule_Interval sched
                 * Schedule_Interval sched)); [| discriminate].
  intros [= <-].
  pose proof (Z.div_mod (currentTime - StartTime sched) (Schedule_Interval sched)).
  pose proof (Z.mod_pos_bound (currentTime - StartTime sched)
                (Schedule_Interval sched) Hpos).
  split; [lia | nia].
Qed.

(** On the fixture of [TestNextScheduleForDagRunsManyDagsSimple] (a run at
    the start, the query five minutes later) that sentence selects nothing,
    while the test expects the start plus one interval. *)
Lemma skipAheadBySpec_selects_nothing :
  skipAheadBySpec ManyDags.sched1 ManyDags.currentTime ManyDags.start = None
  /\ skipAheadBySpec ManyDags.sched2 ManyDags.currentTime ManyDags.start = None
  /\ skipAheadBySpec ManyDags.sched3 ManyDags.currentTime ManyDags.start = None.
Proof. repeat split. Qed.




(** C2: for an hourly DAG starting at T0 with CatchUp and exactly one run
    recorded, at T0, the next schedule is T0 + 1h whatever the current time;
    in general, with CatchUp the next due time is the last recorded run plus
    one interval and does not depend on the current time. *)
Theorem catch_up_next_is_last_run_plus_interval :
  (forall (T0 currentTime : Time) (dagId : Id) (tags : option (list string)),
     let d := emptyDag dagId (Fixed {| Interval := 1 * Hour; Start := T0 |})
                {| CatchUp := true; Tags := tags |} in
     let c := [ {| DagRun_DagId := dagId; DagRun_AtTime := T0 |} ] in
     nextScheduleForDagRuns [d] currentTime c !! dagId
     = Some (Some (time_.Add T0 (1 * Hour))))
  /\ forall (d : Dag) (sched : Schedule) (c : list DagRun) (latest currentTime : Time),
       Dag_Schedule d = Some sched ->
       CatchUp (Dag_Attr d) = true ->
       lastRun c (Dag_Id d) = Some latest ->
       nextScheduleForDagRuns [d] currentTime c !! Dag_Id d
       = Some (Some (latest + Schedule_Interval sched)).
Proof.
  assert (Hgeneral :
    forall (d : Dag) (sched : Schedule) (c : list DagRun) (latest currentTime : Time),
      Dag_Schedule d = Some sched -> CatchUp (Dag_Attr d) = true ->
      lastRun c (Dag_Id d) = Some latest ->
      nextScheduleForDagRuns [d] currentTime c !! Dag_Id d
      = Some (Some (latest + Schedule_Interval sched))).
  { intros d sched c latest currentTime Hsched Hcatch Hlast.
    rewrite nextScheduleForDagRuns_singleton.
    rewrite (nextSchedule_CatchUp d sched currentTime c latest Hsched Hcatch Hlast).
    reflexivity. }
  split; [| exact Hgeneral].
  intros T0 currentTime dagId tags d c.
  apply (Hgeneral d (Fixed {| Interval := 1 * Hour; Start := T0 |}) c T0 currentTime).
  - reflexivity.
  - reflexivity.
  - apply lastRun_singleton.
Qed.

(** The fixture of [TestNextScheduleForDagRunsSimpleWithCatchUp]: one run at
    the start, the query five days later, the expected value start + 1h. *)
Lemma catch_up_next_is_last_run_plus_interval_witness :
  WithCatchUp.c = [ {| DagRun_DagId := WithCatchUp.dagId;
                       DagRun_AtTime := WithCatchUp.startTs |} ]
  /\ nextScheduleForDagRuns [WithCatchUp.d] WithCatchUp.currentTime WithCatchUp.c
       !! Dag_Id WithCatchUp.d
     = Some (Some (WithCatchUp.startTs + Schedule_Interval WithCatchUp.sched))
  /\ WithCatchUp.startTs + Schedule_Interval WithCatchUp.sched
     = WithCatchUp.expectedNextSchedule.
Proof.
  split; [reflexivity |]. split; [| reflexivity].
  apply (proj2 catch_up_next_is_last_run_plus_interval WithCatchUp.d
           WithCatchUp.sched WithCatchUp.c WithCatchUp.startTs
           WithCatchUp.currentTime).
  - reflexivity.
  - reflexivity.
  - apply lastRun_singleton.
Defined.

(** C3: [shouldBeSheduled] fires exactly when the map has a non-nil entry
    for the DAG and the current time is at or after it (so also at the due
    time itself); on firing the due time returned is the old entry, and for
    a DAG with a schedule the entry, and only it, is moved forward by one
    interval; without firing the map is unchanged; a DAG that is absent from
    the map or mapped to nil does not fire. *)
Theorem shouldBeSheduled_fires_iff_due
    (d : Dag) (m : gmap Id (option Time)) (t : Time) :
  let fire := (shouldBeSheduled d m t).1.1 in
  let dueAt := (shouldBeSheduled d m t).1.2 in
  let m' := (shouldBeSheduled d m t).2 in
  (fire = true <-> exists due, m !! Dag_Id d = Some (Some due) /\ due <= t)
  /\ (forall due, m !! Dag_Id d = Some (Some due) -> due <= t ->
        fire = true /\ dueAt = due
        /\ forall sched, Dag_Schedule d = Some sched ->
             m' = <[Dag_Id d := Some (due + Schedule_Interval sched)]> m
             /\ m' !! Dag_Id d = Some (Some (due + Schedule_Interval sched))
             /\ forall other, other <> Dag_Id d -> m' !! other = m !! other)
  /\ (fire = false -> m' = m)
  /\ (m !! Dag_Id d = None \/ m !! Dag_Id d = Some None -> fire = false).
Proof.
  intros fire dueAt m'. subst fire dueAt m'. unfold shouldBeSheduled.
  destruct (m !! Dag_Id d) as [[due |] |] eqn:Hentry.
  - destruct (Z.leb_spec due t) as [Hdue | Hearly]; simpl.
    + split; [split; [intros _; exists due; done | reflexivity] |].
      split.
      * intros due' [= <-] _. split; [reflexivity |]. split; [reflexivity |].
        intros sched ->. split; [reflexivity |].
        split; [apply lookup_insert_eq |].
        intros other Hother. apply lookup_insert_ne. congruence.
      * split; [discriminate |]. intros [Habs | Habs]; discriminate.
    + split; [split; [discriminate | intros (due' & [= <-] & Hle); lia] |].
      split; [intros due' [= <-] Hle; lia |].
      split; [reflexivity |]. intros [Habs | Habs]; discriminate.
  - simpl. split; [split; [discriminate | intros (due' & Habs & _); discriminate] |].
    split; [intros due' Habs; discriminate |]. split; reflexivity.
  - simpl. split; [split; [discriminate | intros (due' & Habs & _); discriminate] |].
    split; [intros due' Habs; discriminate |]. split; reflexivity.
Qed.

(** The calls of [TestShouldBeScheduledSimple], and one at the due time. *)
Lemma shouldBeSheduled_fires_iff_due_witness :
  (shouldBeSheduled ShouldBe.d1 ShouldBe.nextSchedules ShouldBe.currTime1).1.1 = false
  /\ (shouldBeSheduled ShouldBe.d1 ShouldBe.nextSchedules ShouldBe.currTime2).1
     = (true, ShouldBe.d1ns)
  /\ (shouldBeSheduled ShouldBe.d1 ShouldBe.nextSchedules ShouldBe.currTime2).2
       !! Dag_Id ShouldBe.d1
     = Some (Some (ShouldBe.d1ns + Schedule_Interval ShouldBe.sched1))
  /\ ShouldBe.d1ns + Schedule_Interval ShouldBe.sched1
     = ShouldBe.expectedUpdatedNextSched
  /\ (shouldBeSheduled ShouldBe.d1 ShouldBe.nextSchedules ShouldBe.d1ns).1.1 = true
  /\ (shouldBeSheduled ShouldBe.d2 ShouldBe.nextSchedules ShouldBe.currTime2).1.1
     = false.
Proof.
  pose proof (shouldBeSheduled_fires_iff_due ShouldBe.d1 ShouldBe.nextSchedules
                ShouldBe.currTime1) as (Hiff1 & _).
  pose proof (shouldBeSheduled_fires_iff_due ShouldBe.d1 ShouldBe.nextSchedules
                ShouldBe.currTime2) as (_ & Hfire2 & _).
  pose proof (shouldBeSheduled_fires_iff_due ShouldBe.d1 ShouldBe.nextSchedules
                ShouldBe.d1ns) as (_ & Hfire3 & _).
  pose proof (shouldBeSheduled_fires_iff_due ShouldBe.d2 ShouldBe.nextSchedules
                ShouldBe.currTime2) as (_ & _ & _ & Hnil).
  cbv zeta in *.
  assert (Hentry : ShouldBe.nextSchedules !! Dag_Id ShouldBe.d1
                   = Some (Some ShouldBe.d1ns)) by reflexivity.
  destruct (Hfire2 ShouldBe.d1ns Hentry ltac:(vm_compute; discriminate))
    as (Hf2 & Hd2 & Hadv2).
  destruct (Hadv2 ShouldBe.sched1 eq_refl) as (_ & Hnew & _).
  destruct (Hfire3 ShouldBe.d1ns Hentry ltac:(lia)) as (Hf3 & _).
  split.
  { destruct (shouldBeSheduled ShouldBe.d1 ShouldBe.nextSchedules
                ShouldBe.currTime1).1.1 eqn:Hf1; [| reflexivity].
    destruct (proj1 Hiff1 eq_refl) as (due & Hdue & Hle).
    rewrite Hentry in Hdue. injection Hdue as <-.
    vm_compute in Hle. destruct (Hle eq_refl). }
  split.
  { destruct (shouldBeSheduled ShouldBe.d1 ShouldBe.nextSchedules
                ShouldBe.currTime2).1 as [f due]. simpl in *. congruence. }
  split; [exact Hnew |]. split; [reflexivity |]. split; [exact Hf3 |].
  apply Hnil. right. reflexivity.
Defined.

(** One call of [tryScheduleDag]: when [shouldBeSheduled] fires and the run
    is new to the table and the queue has room, the same run is appended to
    both and nil is returned; when it does not fire nothing is persisted or
    queued. *)
Lemma tryScheduleDag_fires d currentTime s dueAt m' :
  shouldBeSheduled d (nextSchedules s) currentTime = (true, dueAt, m') ->
  let dagRun := {| DagRun_DagId := Dag_Id d; DagRun_AtTime := dueAt |} in
  dagRun ∉ dbClient s ->
  (Size (queue s) < capacity (queue s))%nat ->
  tryScheduleDag d currentTime s
  = (None, {| queue := {| items := items (queue s) ++ [dagRun];
                          capacity := capacity (queue s) |};
              nextSchedules := m';
              dbClient := dbClient s ++ [dagRun] |}).
Proof.
  intros Hfire dagRun Hnew Hroom. unfold tryScheduleDag. rewrite Hfire.
  unfold InsertDagRun. fold dagRun. rewrite decide_False by exact Hnew.
  unfold Push. rewrite decide_False by lia. reflexivity.
Qed.

Lemma tryScheduleDag_idle d currentTime s dueAt m' :
  shouldBeSheduled d (nextSchedules s) currentTime = (false, dueAt, m') ->
  tryScheduleDag d currentTime s
  = (None, {| queue := queue s; nextSchedules := m'; dbClient := dbClient s |}).
Proof. intros Hidle. unfold tryScheduleDag. rewrite Hidle. reflexivity. Qed.

(** What a call that returns nil leaves behind: either nothing new, or one
    and the same run at the end of the table and of the queue. *)
Lemma tryScheduleDag_same_run d currentTime s s' :
  tryScheduleDag d currentTime s = (None, s') ->
  (dbClient s' = dbClient s /\ items (queue s') = items (queue s))
  \/ exists dagRun,
       DagRun_DagId dagRun = Dag_Id d
       /\ nextSchedules s !! Dag_Id d = Some (Some (DagRun_AtTime dagRun))
       /\ dbClient s' = dbClient s ++ [dagRun]
       /\ items (queue s') = items (queue s) ++ [dagRun].
Proof.
  unfold tryScheduleDag.
  destruct (shouldBeSheduled d (nextSchedules s) currentTime)
    as [[fire dueAt] m'] eqn:Hshould.
  destruct fire.
  - unfold InsertDagRun, Push.
    destruct (decide (_ ∈ dbClient s)); [discriminate |].
    destruct (decide (capacity (queue s) <= Size (queue s))%nat); [discriminate |].
    intros [= <-]. right.
    exists {| DagRun_DagId := Dag_Id d; DagRun_AtTime := dueAt |}. simpl.
    split; [reflexivity |]. split; [| split; reflexivity].
    unfold shouldBeSheduled in Hshould.
    destruct (nextSchedules s !! Dag_Id d) as [[due |] |]; try discriminate.
    destruct (due <=? currentTime); [| discriminate].
    injection Hshould as <- _. reflexivity.
  - intros [= <-]. left. split; reflexivity.
Qed.

(** C4: driving [tryScheduleDag] for the hourly DAG with next due time 14:00
    over the six time points of [TestTryScheduleDagSimple] reports no error
    and leaves exactly three runs in the table and the same three runs, in
    the same order, on the queue, with the times 14:00, 15:00 and 16:00 in
    increasing order (read back most recent first); every call that returns
    nil either persists and queues nothing or appends one and the same run,
    at the due time of the map, to the table and to the queue. *)
Theorem tryScheduleDag_three_runs :
  let runs := (fun t => {| DagRun_DagId := "dag1"; DagRun_AtTime := t |})
                <$> TrySchedule.expectedExecTimes in
  (TrySchedule.final.1 = []
   /\ dbClient TrySchedule.final.2 = runs
   /\ items (queue TrySchedule.final.2) = runs
   /\ Count (dbClient TrySchedule.final.2) = TrySchedule.expectedDagRuns
   /\ Size (queue TrySchedule.final.2) = TrySchedule.expectedDagRuns
   /\ ReadDagRuns (dbClient TrySchedule.final.2) "dag1" TrySchedule.expectedDagRuns
      = reverse runs
   /\ TrySchedule.expectedExecTimes
      = [ Date 2023 October 5 14 0 0 0; Date 2023 October 5 15 0 0 0;
          Date 2023 October 5 16 0 0 0 ]
   /\ StronglySorted Z.lt TrySchedule.expectedExecTimes)
  /\ forall (d : Dag) (currentTime : Time) (s s' : Scheduler),
       tryScheduleDag d currentTime s = (None, s') ->
       (dbClient s' = dbClient s /\ items (queue s') = items (queue s))
       \/ exists dagRun,
            DagRun_DagId dagRun = Dag_Id d
            /\ nextSchedules s !! Dag_Id d = Some (Some (DagRun_AtTime dagRun))
            /\ dbClient s' = dbClient s ++ [dagRun]
            /\ items (queue s') = items (queue s) ++ [dagRun].
Proof.
  intros runs. split; [| exact tryScheduleDag_same_run].
  assert (Hfinal : TrySchedule.final
            = ([], {| queue := {| items := runs; capacity := 100 |};
                      nextSchedules :=
                        {[ "dag1"%string := Some (Date 2023 October 5 17 0 0 0) ]};
                      dbClient := runs |})).
  { subst runs. vm_compute. reflexivity. }
  rewrite Hfinal. simpl.
  split; [reflexivity |]. split; [reflexivity |]. split; [reflexivity |].
  split; [reflexivity |]. split; [reflexivity |].
  split; [vm_compute; reflexivity |]. split; [reflexivity |].
  repeat constructor.
Qed.

(** The second time point of the test, 14:00:01: the run of 14:00 is
    persisted and queued. *)
Lemma tryScheduleDag_three_runs_witness :
  exists dagRun,
    DagRun_DagId dagRun = Dag_Id TrySchedule.d1
    /\ nextSchedules TrySchedule.initial !! Dag_Id TrySchedule.d1
       = Some (Some (DagRun_AtTime dagRun))
    /\ dbClient (tryScheduleDag TrySchedule.d1 (Date 2023 October 5 14 0 1 0)
                   TrySchedule.initial).2
       = dbClient TrySchedule.initial ++ [dagRun]
    /\ items (queue (tryScheduleDag TrySchedule.d1 (Date 2023 October 5 14 0 1 0)
                       TrySchedule.initial).2)
       = items (queue TrySchedule.initial) ++ [dagRun].
Proof.
  destruct (proj2 tryScheduleDag_three_runs TrySchedule.d1
              (Date 2023 October 5 14 0 1 0) TrySchedule.initial
              (tryScheduleDag TrySchedule.d1 (Date 2023 October 5 14 0 1 0)
                 TrySchedule.initial).2)
    as [[Hsame _] | Hrun].
  - vm_compute. reflexivity.
  - vm_compute in Hsame. discriminate Hsame.
  - exact Hrun.
Defined.

(** * The other tests of the package against the model *)

Lemma TestNextScheduleForDagRunsSimpleWithCatchUp_passes :
  WithCatchUp.passes nextScheduleForDagRuns.
Proof.
  split.
  - unfold nextScheduleForDagRuns. simpl.
    rewrite insert_empty. apply map_size_singleton.
  - exists WithCatchUp.expectedNextSchedule. split.
    + rewrite nextScheduleForDagRuns_singleton.
      rewrite (nextSchedule_CatchUp WithCatchUp.d WithCatchUp.sched
                 WithCatchUp.currentTime WithCatchUp.c WithCatchUp.startTs);
        [reflexivity | reflexivity | reflexivity | apply lastRun_singleton].
    + apply Compare_eq. reflexivity.
Qed.

(** Three DAGs with a run each at the start and the query five minutes
    later: [TestNextScheduleForDagRunsManyDagsSimple] expects for each the
    occurrence one interval after the start, where the sentence of the spec
    selects none; the function modelled from the spec does not pass. *)
Lemma TestNextScheduleForDagRunsManyDagsSimple_fails :
  ~ ManyDags.passes nextScheduleForDagRuns.
Proof.
  assert (Hnodup : NoDup (Dag_Id <$> [ManyDags.d1; ManyDags.d2; ManyDags.d3])).
  { apply (bool_decide_unpack _). vm_compute. exact I. }
  intros [_ Hvalues]. cbn [fmap list_fmap] in Hvalues.
  rewrite !nextScheduleForDagRuns_lookup in Hvalues
    by first [exact Hnodup | repeat constructor].
  vm_compute in Hvalues. discriminate Hvalues.
Qed.

(** DAGs without a schedule are mapped to nil. *)
Lemma TestNextScheduleForDagRunsNoSchedule_passes :
  NoSchedule.passes nextScheduleForDagRuns.
Proof.
  split.
  - unfold nextScheduleForDagRuns. simpl.
    rewrite !map_size_insert_None; [reflexivity | ..];
      repeat (rewrite lookup_insert_ne by discriminate); apply lookup_empty.
  - intros dagId nextSched. unfold nextScheduleForDagRuns. simpl. intros Hentry.
    apply lookup_insert_Some in Hentry as [[_ <-] | [_ Hentry]]; [reflexivity |].
    apply lookup_insert_Some in Hentry as [[_ <-] | [_ Hentry]]; [reflexivity |].
    rewrite lookup_empty in Hentry. discriminate Hentry.
Qed.

(** [TestNextScheduleForDagRunsBeforeStart]: with no run recorded, every
    DAG with a schedule is due at the start time of its schedule. *)
Lemma TestNextScheduleForDagRunsBeforeStart_passes dags currentTime d sched :
  NoDup (Dag_Id <$> dags) -> d ∈ dags -> Dag_Schedule d = Some sched ->
  nextScheduleForDagRuns dags currentTime [] !! Dag_Id d
  = Some (Some (StartTime sched)).
Proof.
  intros Hnodup Hin Hsched.
  rewrite nextScheduleForDagRuns_lookup by assumption.
  rewrite (nextSchedule_first_run d sched currentTime [] Hsched); [reflexivity |].
  apply lastRun_None. intros r Hr. apply elem_of_nil in Hr. destruct Hr.
Qed.

Lemma TestShouldBeScheduledExactlyOnScheduleTime_passes d sched m currTime n :
  Dag_Schedule d = Some sched ->
  m !! Dag_Id d = Some (Some currTime) ->
  onScheduleTime d m currTime n
  = (fun i : nat => (true, currTime + Z.of_nat i * Schedule_Interval sched))
      <$> seq 0 n.
Proof.
  intros Hsched. revert m currTime.
  induction n as [| n IH]; intros m currTime Hentry; [reflexivity |].
  cbn [onScheduleTime]. unfold shouldBeSheduled.
  rewrite Hentry, Hsched. rewrite Z.leb_refl, lookup_insert_eq.
  rewrite IH by apply lookup_insert_eq.
  cbn [seq fmap list_fmap]. f_equal; [f_equal; lia |].
  rewrite <- seq_shift, <- list_fmap_compose.
  apply list_fmap_ext. intros i x _. simpl. f_equal. lia.
Qed.

(** * Rows of table [dags] *)

Lemma pointerEqual_eq {T : Type} `{EqDecision T} (a b : option T) :
  dbdags.pointerEqual a b = true <-> a = b.
Proof.
  destruct a as [x |], b as [y |]; simpl; try (split; [discriminate | congruence]).
  - rewrite bool_decide_eq_true. split; congruence.
  - split; reflexivity.
Qed.

(** [Dag.Equals] holds exactly when the two rows agree on all ten columns,
    a nil column agreeing only with a nil one and two non-nil columns when
    the strings they point to are equal; so it is reflexive and
    symmetric. *)
Theorem Equals_iff_eq (d e : dbdags.Dag) :
  (dbdags.Equals d e = true <-> d = e)
  /\ dbdags.Equals d d = true
  /\ dbdags.Equals d e = dbdags.Equals e d.
Proof.
  assert (Hiff : forall x y : dbdags.Dag, dbdags.Equals x y = true <-> x = y).
  { intros x y. unfold dbdags.Equals. split.
    - intros Heq.
      repeat match type of Heq with
             | (if negb ?c then false else _) = true =>
                 destruct c eqn:?; simpl in Heq; [| discriminate Heq]
             end.
      repeat match goal with
             | H : bool_decide _ = true |- _ => apply bool_decide_eq_true in H
             | H : dbdags.pointerEqual _ _ = true |- _ => apply pointerEqual_eq in H
             end.
      destruct x, y; simpl in *; congruence.
    - intros <-.
      rewrite !(bool_decide_eq_true_2 _ eq_refl).
      rewrite !(proj2 (pointerEqual_eq _ _) eq_refl). reflexivity. }
  split; [apply Hiff |]. split; [apply Hiff; reflexivity |].
  destruct (dbdags.Equals d e) eqn:Hde, (dbdags.Equals e d) eqn:Hed;
    try reflexivity.
  - apply Hiff in Hde. subst e. rewrite (proj2 (Hiff d d) eq_refl) in Hed.
    discriminate Hed.
  - apply Hiff in Hed. subst e. rewrite (proj2 (Hiff d d) eq_refl) in Hde.
    discriminate Hde.
Qed.

(** When the attributes serialise, the metadata hash [fromDagToDag] stores
    can be recomputed from the row itself: it is the hex SHA-256 of the
    stored Attributes followed by the stored Schedule and StartTs (nothing
    for a nil column); Schedule and StartTs are nil together, exactly when
    the DAG has no schedule, and a new row has no update stamp. *)
Theorem fromDagToDag_hash_of_columns
    (json_Marshal : Attr -> result (list Byte.byte))
    (Sum256 : list Byte.byte -> list Byte.byte)
    (Schedule_String : Schedule -> string) (ToString : Time -> string)
    (Node_Hash : Node -> string) (Version : string)
    (d : Dag) (createTs : string) (attrJson : list Byte.byte) :
  json_Marshal (Dag_Attr d) = Ok attrJson ->
  let row := dbdags.fromDagToDag json_Marshal Sum256 Schedule_String ToString
               Node_Hash Version d createTs in
  dbdags.HashDagMeta row
  = hex.EncodeToString
      (Sum256 (bytes (dbdags.Attributes row)
               ++ bytes (default EmptyString (dbdags.Schedule row))
               ++ bytes (default EmptyString (dbdags.StartTs row))))
  /\ (dbdags.Schedule row = None <-> Dag_Schedule d = None)
  /\ (dbdags.StartTs row = None <-> Dag_Schedule d = None)
  /\ dbdags.LatestUpdateTs row = None
  /\ dbdags.LatestUpdateVersion row = None.
Proof.
  intros Hjson row. subst row. unfold dbdags.fromDagToDag, dbdags.attributes.
  rewrite (HashDagMeta_ok json_Marshal Sum256 Schedule_String ToString d attrJson Hjson).
  rewrite Hjson.
  destruct (Dag_Schedule d) as [s |]; simpl;
    unfold bytes; rewrite list_byte_of_string_of_list_byte;
    (split; [reflexivity |]); repeat split; discriminate.
Qed.

Lemma fromDagToDag_hash_of_columns_witness :
  dbdags.HashDagMeta
    (dbdags.fromDagToDag sample.json_Marshal sample.Sum256 sample.Schedule_String
       sample.ToString sample.Node_Hash "0.0.1" withTasks "2023-10-05T12:00:00Z")
  = hex.EncodeToString
      (sample.Sum256
         (bytes "catchUp:trueetl,daily" ++ bytes "FixedSchedule"
          ++ bytes "2023-10-05T12:00:00Z")).
Proof.
  exact (proj1 (fromDagToDag_hash_of_columns sample.json_Marshal sample.Sum256
                  sample.Schedule_String sample.ToString sample.Node_Hash "0.0.1"
                  withTasks "2023-10-05T12:00:00Z"
                  (bytes "catchUp:trueetl,daily") eq_refl)).
Defined.

(** * [UpsertDag] and [ReadDag] *)

Section UpsertFacts.
Variable json_Marshal : Attr -> result (list Byte.byte).
Variable Sum256 : list Byte.byte -> list Byte.byte.
Variable Schedule_String : Schedule -> string.
Variable ToString : Time -> string.
Variable Node_Hash : Node -> string.
Variable Version : string.

#[local] Abbreviation fromDagToDag :=
  (dbdags.fromDagToDag json_Marshal Sum256 Schedule_String ToString Node_Hash Version).
#[local] Abbreviation dagUpdate :=
  (dbdags.dagUpdate json_Marshal Sum256 Schedule_String ToString Node_Hash Version).
#[local] Abbreviation UpsertDag :=
  (dbdags.UpsertDag json_Marshal Sum256 Schedule_String ToString Node_Hash Version).
#[local] Abbreviation byId dagId := (fun r => bool_decide (dbdags.DagId r = dagId)).
#[local] Abbreviation insertOf row :=
  (dbdags.dagInsertQuery (dbdags.DagId row) (dbdags.StartTs row)
     (dbdags.Schedule row) (dbdags.CreateTs row) (dbdags.LatestUpdateTs row)
     (dbdags.CreateVersion row) (dbdags.LatestUpdateVersion row)
     (dbdags.HashDagMeta row) (dbdags.HashTasks row) (dbdags.Attributes row)).
#[local] Abbreviation updateOf row :=
  (dbdags.dagUpdateQuery (dbdags.StartTs row) (dbdags.Schedule row)
     (dbdags.LatestUpdateTs row) (dbdags.LatestUpdateVersion row)
     (dbdags.HashDagMeta row) (dbdags.HashTasks row) (dbdags.Attributes row)
     (dbdags.DagId row)).

(** [UpsertDag] from [Begin] on, whatever the database answers.  When
    [Begin] fails the call panics on the nil transaction and nothing else
    is asked of the database.  When [Begin] succeeds the call asks for
    exactly one read, one write and one commit, in this order, followed by a
    rollback only when the commit failed.  The write is the INSERT of
    [fromDagToDag] when the read found no row, the UPDATE of [dagUpdate] on
    the row read when it found one, and the UPDATE of [dagUpdate] on an
    empty row when the read failed for another reason.  The commit is asked
    for even when the write failed; its error, if any, is the one returned,
    and the error of the write is returned only when the commit
    succeeded. *)
Theorem UpsertDag_requests (a : dbdags.Answers) (h : list dbdags.Event)
    (insertTs : string) (d : Dag) :
  let run :=
    dbdags.Client_UpsertDag json_Marshal Sum256 Schedule_String ToString Node_Hash
      Version (dbdags.recordingConn a) insertTs h d in
  let h0 := h ++ [dbdags.evBegin] in
  match dbdags.onBegin a h with
  | Some _ => run = Panicked dbdags.nilTx h0
  | None =>
      let stmt :=
        match dbdags.onQueryRow a h0 (Dag_Id d) with
        | inr dbdags.ErrNoRows => insertOf (fromDagToDag d insertTs)
        | inl curr => updateOf (dagUpdate d curr insertTs)
        | inr (dbdags.otherError _) => updateOf (dagUpdate d dbdags.zeroDag insertTs)
        end in
      let asked := h0 ++ [dbdags.evQueryRow (Dag_Id d); dbdags.evExec stmt] in
      run
      = Returned
          match dbdags.onCommit a asked with
          | Some e => Some e
          | None => dbdags.onExec a (h0 ++ [dbdags.evQueryRow (Dag_Id d)]) stmt
          end
          (asked ++ [dbdags.evCommit]
           ++ match dbdags.onCommit a asked with
              | Some _ => [dbdags.evRollback]
              | None => []
              end)
  end.
Proof.
  unfold dbdags.Client_UpsertDag.
  cbn [dbdags.Begin dbdags.begun dbdags.recordingConn].
  destruct (dbdags.onBegin a h) as [bErr |]; [reflexivity |].
  unfold dbdags.UpsertDag, dbdags.readDagTx, dbdags.insertDag, dbdags.updateDag.
  cbn [dbdags.QueryRowScan dbdags.Exec dbdags.Commit dbdags.Rollback dbdags.recording].
  destruct (dbdags.onQueryRow a (h ++ [dbdags.evBegin]) (Dag_Id d)) as [curr | [| e]];
    cbn zeta; rewrite <- !app_assoc; cbn [app];
    destruct (dbdags.onCommit a _); cbn zeta; rewrite <- ?app_assoc;
    reflexivity.
Qed.

(** On the table that carries out every statement. *)
Lemma find_byId_app (rows more : list dbdags.Dag) dagId :
  List.find (byId dagId) (rows ++ more)
  = match List.find (byId dagId) rows with
    | Some r => Some r
    | None => List.find (byId dagId) more
    end.
Proof.
  induction rows as [| r rows IH]; simpl; [reflexivity |].
  destruct (bool_decide (dbdags.DagId r = dagId)); [reflexivity | exact IH].
Qed.

Lemma find_byId_fmap (rows : list dbdags.Dag) (f : dbdags.Dag -> dbdags.Dag) dagId :
  (forall r, dbdags.DagId (f r) = dbdags.DagId r) ->
  List.find (byId dagId) (f <$> rows) = f <$> List.find (byId dagId) rows.
Proof.
  intros Hid. induction rows as [| r rows IH]; simpl; [reflexivity |].
  rewrite Hid. destruct (bool_decide (dbdags.DagId r = dagId)); [reflexivity | exact IH].
Qed.

Lemma find_byId_Some (rows : list dbdags.Dag) dagId r :
  List.find (byId dagId) rows = Some r -> dbdags.DagId r = dagId /\ r ∈ rows.
Proof.
  induction rows as [| x rows IH]; simpl; [discriminate |].
  destruct (bool_decide (dbdags.DagId x = dagId)) eqn:Hx.
  - intros [= <-]. apply bool_decide_eq_true in Hx. split; [exact Hx | left].
  - intros Hfind. destruct (IH Hfind) as [Hid Hin]. split; [exact Hid | right; exact Hin].
Qed.

Lemma find_byId_None (rows : list dbdags.Dag) dagId :
  List.find (byId dagId) rows = None <-> dagId ∉ dbdags.DagId <$> rows.
Proof.
  induction rows as [| x rows IH]; cbn [List.find].
  - split; [intros _ Hin; apply elem_of_nil in Hin; exact Hin | reflexivity].
  - rewrite fmap_cons, not_elem_of_cons.
    destruct (bool_decide (dbdags.DagId x = dagId)) eqn:Hx.
    + apply bool_decide_eq_true in Hx. split; [discriminate | intros [Hne _]; congruence].
    + apply bool_decide_eq_false in Hx. rewrite IH.
      split; [intros Hnot; split; congruence | intros [_ Hnot]; exact Hnot].
Qed.

Lemma fromDagToDag_columns d createTs :
  dbdags.DagId (fromDagToDag d createTs) = Dag_Id d
  /\ dbdags.HashDagMeta (fromDagToDag d createTs)
     = (HashDagMeta json_Marshal Sum256 Schedule_String ToString d).1
  /\ dbdags.HashTasks (fromDagToDag d createTs) = HashTasks Sum256 Node_Hash d
  /\ dbdags.Attributes (fromDagToDag d createTs) = dbdags.attributes json_Marshal d.
Proof.
  unfold dbdags.fromDagToDag. destruct (Dag_Schedule d); repeat split; reflexivity.
Qed.

(** What [UpsertDag] leaves in the table. *)
Lemma UpsertDag_table insertTs rows d :
  UpsertDag dbdags.table insertTs rows d
  = (match List.find (byId (Dag_Id d)) rows with
     | None => rows ++ [fromDagToDag d insertTs]
     | Some curr =>
         (fun r => if bool_decide (dbdags.DagId r = Dag_Id d)
                   then let u := dagUpdate d curr insertTs in
                        dbdags.updated (dbdags.StartTs u) (dbdags.Schedule u)
                          (dbdags.LatestUpdateTs u) (dbdags.LatestUpdateVersion u)
                          (dbdags.HashDagMeta u) (dbdags.HashTasks u)
                          (dbdags.Attributes u) r
                   else r) <$> rows
     end, None).
Proof.
  unfold dbdags.UpsertDag, dbdags.readDagTx, dbdags.insertDag, dbdags.updateDag.
  simpl. destruct (List.find (byId (Dag_Id d)) rows); [reflexivity |].
  unfold dbdags.fromDagToDag. destruct (Dag_Schedule d); reflexivity.
Qed.

(** Round trip on such a table: [UpsertDag] returns nil, and [ReadDag] of
    the DAG's id then returns, without error, a row of that id with the
    hashes and the serialised attributes of the DAG.  When the table had no
    row of the id it is the row [fromDagToDag] builds; otherwise the row
    keeps the StartTs, Schedule, CreateTs and CreateVersion of the row read
    before, whatever the schedule of the DAG now is, and gets the update
    stamp. *)
Theorem UpsertDag_then_ReadDag (insertTs : string) (rows : list dbdags.Dag) (d : Dag) :
  let rows' := (UpsertDag dbdags.table insertTs rows d).1 in
  (UpsertDag dbdags.table insertTs rows d).2 = None
  /\ exists row,
       dbdags.ReadDag dbdags.table rows' (Dag_Id d) = (rows', (row, None))
       /\ dbdags.DagId row = Dag_Id d
       /\ dbdags.HashDagMeta row
          = (HashDagMeta json_Marshal Sum256 Schedule_String ToString d).1
       /\ dbdags.HashTasks row = HashTasks Sum256 Node_Hash d
       /\ dbdags.Attributes row = dbdags.attributes json_Marshal d
       /\ match List.find (byId (Dag_Id d)) rows with
          | None => row = fromDagToDag d insertTs
          | Some curr =>
              dbdags.StartTs row = dbdags.StartTs curr
              /\ dbdags.Schedule row = dbdags.Schedule curr
              /\ dbdags.CreateTs row = dbdags.CreateTs curr
              /\ dbdags.CreateVersion row = dbdags.CreateVersion curr
              /\ dbdags.LatestUpdateTs row = Some insertTs
              /\ dbdags.LatestUpdateVersion row = Some Version
          end.
Proof.
  intros rows'. subst rows'. rewrite UpsertDag_table. simpl.
  split; [reflexivity |].
  unfold dbdags.ReadDag, dbdags.readDagTx. simpl.
  destruct (List.find (byId (Dag_Id d)) rows) as [curr |] eqn:Hfind.
  - rewrite find_byId_fmap by (intros r; destruct (bool_decide _); reflexivity).
    rewrite Hfind. simpl.
    destruct (find_byId_Some rows (Dag_Id d) curr Hfind) as [Hid _].
    rewrite (bool_decide_eq_true_2 _ Hid).
    eexists. split; [reflexivity |]. simpl.
    split; [exact Hid |]. repeat split; reflexivity.
  - rewrite find_byId_app, Hfind. cbn [List.find].
    destruct (fromDagToDag_columns d insertTs) as (Hid & Hmeta & Htasks & Hattr).
    rewrite (bool_decide_eq_true_2 _ Hid).
    eexists. split; [reflexivity |]. repeat split; assumption.
Qed.

(** [UpsertDag] never adds a second row for an id: a table with at most one
    row per DagId stays so, it grows by one row exactly when the id was new,
    and what [ReadDag] finds for any other id is unchanged. *)
Theorem UpsertDag_one_row_per_id (insertTs : string) (rows : list dbdags.Dag) (d : Dag) :
  NoDup (dbdags.DagId <$> rows) ->
  let rows' := (UpsertDag dbdags.table insertTs rows d).1 in
  NoDup (dbdags.DagId <$> rows')
  /\ length rows'
     = (length rows
        + match List.find (byId (Dag_Id d)) rows with Some _ => 0 | None => 1 end)%nat
  /\ forall other, other <> Dag_Id d ->
       List.find (byId other) rows' = List.find (byId other) rows.
Proof.
  intros Hnodup rows'. subst rows'. rewrite UpsertDag_table. simpl.
  destruct (List.find (byId (Dag_Id d)) rows) as [curr |] eqn:Hfind.
  - assert (Hids : forall l : list dbdags.Dag,
              dbdags.DagId <$>
                ((fun r => if bool_decide (dbdags.DagId r = Dag_Id d)
                           then let u := dagUpdate d curr insertTs in
                                dbdags.updated (dbdags.StartTs u) (dbdags.Schedule u)
                                  (dbdags.LatestUpdateTs u) (dbdags.LatestUpdateVersion u)
                                  (dbdags.HashDagMeta u) (dbdags.HashTasks u)
                                  (dbdags.Attributes u) r
                           else r) <$> l)
              = dbdags.DagId <$> l).
    { intros l. rewrite <- list_fmap_compose. apply list_fmap_ext.
      intros i r _. simpl. destruct (bool_decide _); reflexivity. }
    split; [rewrite Hids; exact Hnodup |].
    split; [rewrite length_fmap; lia |].
    intros other Hother.
    rewrite find_byId_fmap by (intros r; destruct (bool_decide _); reflexivity).
    destruct (List.find (byId other) rows) as [r |] eqn:Hr; [| reflexivity].
    simpl. destruct (find_byId_Some rows other r Hr) as [Hid _].
    rewrite bool_decide_eq_false_2 by congruence. reflexivity.
  - split.
    + rewrite fmap_app. simpl. apply NoDup_app. split; [exact Hnodup |].
      split; [| apply NoDup_singleton].
      intros id Hin Hnew. apply list_elem_of_singleton in Hnew. subst id.
      apply find_byId_None in Hfind. apply Hfind.
      rewrite (proj1 (fromDagToDag_columns d insertTs)) in Hin. exact Hin.
    + split; [rewrite length_app; simpl; lia |].
      intros other Hother. rewrite find_byId_app.
      destruct (List.find (byId other) rows); [reflexivity |].
      cbn [List.find]. rewrite (proj1 (fromDagToDag_columns d insertTs)).
      rewrite bool_decide_eq_false_2 by congruence. reflexivity.
Qed.

End UpsertFacts.

(** Two upserts of the same DAG into an empty table leave one row. *)
Lemma UpsertDag_one_row_per_id_witness :
  let upsert :=
    dbdags.UpsertDag sample.json_Marshal sample.Sum256 sample.Schedule_String
      sample.ToString sample.Node_Hash "0.0.1" dbdags.table in
  let once := (upsert "2023-10-05T12:00:00Z" [] withTasks).1 in
  let twice := (upsert "2023-10-05T14:00:00Z" once withTasks).1 in
  NoDup (dbdags.DagId <$> twice) /\ length twice = 1%nat.
Proof.
  intros upsert once twice.
  destruct (UpsertDag_one_row_per_id sample.json_Marshal sample.Sum256
              sample.Schedule_String sample.ToString sample.Node_Hash "0.0.1"
              "2023-10-05T14:00:00Z" once withTasks) as (Hnodup & Hlen & _).
  - vm_compute. apply NoDup_singleton.
  - split; [exact Hnodup | exact Hlen].
Defined.

(** * More on the state cache *)

(** [Update] on a present key succeeds, after it [Get] returns the new
    value, every other key reads as before and the set of keys is the
    same. *)
Theorem simpleCache_Update_Get {K V : Type} `{cacheableKeys K}
    (sc : simpleCache K V) (k : K) (v0 v : V) :
  data sc !! k = Some v0 ->
  (Update sc k v).1 = None
  /\ Get (Update sc k v).2 k = Ok v
  /\ (forall k', k <> k' -> Get (Update sc k v).2 k' = Get sc k')
  /\ dom (data (Update sc k v).2) = dom (data sc).
Proof.
  intros Hpresent. rewrite (Update_present sc k v) by (exists v0; exact Hpresent).
  simpl. split; [reflexivity |].
  split; [apply Get_upsert |].
  split; [intros k' Hne; apply Get_upsert_ne; exact Hne |].
  rewrite dom_insert_L. apply (elem_of_dom_2 (data sc)) in Hpresent.
  apply subseteq_union_1_L, singleton_subseteq_l, Hpresent.
Qed.

Lemma simpleCache_Update_Get_witness :
  Get (Update (upsert newSimpleCache taskKey started) taskKey succeeded).2 taskKey
  = Ok succeeded.
Proof.
  exact (proj1 (proj2 (simpleCache_Update_Get
                         (upsert newSimpleCache taskKey started) taskKey started
                         succeeded (lookup_insert_eq _ taskKey started)))).
Defined.

(** After [Remove] the key is gone: [Get] and [Update] fail with
    [ErrCacheKeyDoesNotExist] and [Add] succeeds again; every other key
    reads as before; removing twice is removing once; and [Remove] undoes an
    [Add] of a key that was absent. *)
Theorem simpleCache_Remove {K V : Type} `{cacheableKeys K}
    (sc : simpleCache K V) (k : K) (v : V) :
  Get (Remove sc k) k = Err ErrCacheKeyDoesNotExist
  /\ Update (Remove sc k) k v = (Some ErrCacheKeyDoesNotExist, Remove sc k)
  /\ (Add (Remove sc k) k v).1 = None
  /\ (forall k', k <> k' -> Get (Remove sc k) k' = Get sc k')
  /\ Remove (Remove sc k) k = Remove sc k
  /\ dom (data (Remove sc k)) = dom (data sc) ∖ {[k]}
  /\ (data sc !! k = None -> Remove (Add sc k v).2 k = sc).
Proof.
  unfold Get, Update, Add, Remove. simpl. rewrite !lookup_delete_eq.
  split; [reflexivity |]. split; [reflexivity |]. split; [reflexivity |].
  split; [intros k' Hne; rewrite lookup_delete_ne by exact Hne; reflexivity |].
  split; [f_equal; apply delete_id, lookup_delete_eq |].
  split; [apply dom_delete_L |].
  intros Habsent. rewrite Habsent. simpl. destruct sc as [m]. simpl in *.
  f_equal. rewrite delete_insert_eq. apply delete_id. exact Habsent.
Qed.

Lemma simpleCache_Remove_witness :
  Remove (Add (newSimpleCache : simpleCache DagRunTask DagRunTaskState)
            taskKey succeeded).2 taskKey
  = newSimpleCache.
Proof.
  destruct (simpleCache_Remove
              (newSimpleCache : simpleCache DagRunTask DagRunTaskState)
              taskKey succeeded) as (_ & _ & _ & _ & _ & _ & Hundo).
  exact (Hundo (lookup_empty taskKey)).
Defined.

(** The last lines of [PullFromDatabase] are an upsert that returns nil. *)
Lemma Get_Add_Update {K V : Type} `{cacheableKeys K} (sc : simpleCache K V) k v :
  match Get sc k with
  | Err ErrCacheKeyDoesNotExist =>
      let '(err, sc') := Add sc k v in Returned err sc'
  | _ => let '(err, sc') := Update sc k v in Returned err sc'
  end = Returned None (upsert sc k v).
Proof.
  unfold Get, Add, Update, upsert. destruct (data sc !! k); reflexivity.
Qed.

(** The effect of [PullFromDatabase] on the cache: a call that returns an
    error or panics leaves the cache exactly as it was; a call that returns
    nil has put a value under the key and changed no other key; and pulling
    again from the same store then returns nil and changes nothing. *)
Theorem PullFromDatabase_effect {K V : Type} `{cacheableKeys K} `{cacheableValues V}
    (Read : string -> string -> string -> result (string * string))
    (parse : string -> result DagRunTaskStatus)
    (ToString : Time -> string) (FromStringMust : string -> must Time)
    (sc : simpleCache K V) (key : K) :
  match PullFromDatabase Read parse ToString FromStringMust sc key with
  | Returned (Some _) sc' => sc' = sc
  | Panicked _ sc' => sc' = sc
  | Returned None sc' =>
      (exists v, Get sc' key = Ok v)
      /\ (forall k', key <> k' -> Get sc' k' = Get sc k')
      /\ dom (data sc') = {[key]} ∪ dom (data sc)
      /\ PullFromDatabase Read parse ToString FromStringMust sc' key
         = Returned None sc'
  end.
Proof.
  unfold PullFromDatabase.
  destruct (toAny key) as [run | obj]; [reflexivity |].
  destruct (Read _ _ _) as [[statusStr ts] | err]; [| reflexivity].
  destruct (parse statusStr) as [status | sErr]; [| reflexivity].
  destruct (FromStringMust ts) as [t | msg]; [| reflexivity].
  rewrite !Get_Add_Update.
  split; [eexists; apply Get_upsert |].
  split; [intros k' Hne; apply Get_upsert_ne; exact Hne |].
  split; [apply dom_insert_L |].
  f_equal. unfold upsert. simpl. f_equal. apply insert_insert_eq.
Qed.

(** * The shutdown counter *)








(** * The SQLite client *)

Section SqliteFacts.
Variable TrimSpace : string -> string.
Variable SchemaStatements : string -> result (list string).

#[local] Abbreviation wanted stmts :=
  (filter (fun q : string => q ≠ ""%string) (TrimSpace <$> stmts)).

Lemma execAll_executes a db stmts h :
  let run := sqlite.execAll TrimSpace (sqlite.recording a) h db stmts in
  exists executed,
    run.1 = h ++ (sqlite.evExec db <$> executed)
    /\ executed `prefix_of` wanted stmts
    /\ (forall done q rest, executed = done ++ q :: rest ->
          sqlite.onExec a (h ++ (sqlite.evExec db <$> done)) db q
          = match rest with [] => run.2 | _ :: _ => None end)
    /\ (run.2 = None -> executed = wanted stmts)
    /\ (run.2 <> None -> executed <> []).
Proof.
  revert h. induction stmts as [| query stmts IH]; intros h; cbn zeta.
  - exists []. cbn. rewrite app_nil_r. repeat split; try done.
    intros done q rest Heq. destruct done; discriminate.
  - cbn [sqlite.execAll]. rewrite fmap_cons, filter_cons.
    destruct (decide (TrimSpace query = ""%string)) as [Hblank | Hquery].
    + rewrite (bool_decide_eq_true_2 _ Hblank).
      destruct (decide (TrimSpace query ≠ ""%string)) as [? | _]; [done |].
      exact (IH h).
    + rewrite (bool_decide_eq_false_2 _ Hquery).
      destruct (decide (TrimSpace query ≠ ""%string)) as [_ | ?]; [| done].
      cbn [sqlite.DB_Exec sqlite.recording].
      destruct (sqlite.onExec a h db (TrimSpace query)) as [e |] eqn:Hanswer.
      * exists [TrimSpace query]. cbn [fst snd fmap list_fmap].
        split; [reflexivity |]. split; [apply prefix_cons, prefix_nil |].
        split; [| split; [discriminate | discriminate]].
        intros done q rest Heq. destruct done as [| q' done].
        -- injection Heq as <- <-. cbn. rewrite app_nil_r. exact Hanswer.
        -- injection Heq as _ Heq. destruct done; discriminate.
      * destruct (IH (h ++ [sqlite.evExec db (TrimSpace query)]))
          as (executed & Htrace & Hprefix & Hanswers & Hall & Hsome).
        exists (TrimSpace query :: executed).
        split; [rewrite Htrace, <- app_assoc; reflexivity |].
        split; [apply prefix_cons, Hprefix |].
        split; [| split].
        -- intros done q rest Heq. destruct done as [| q' done].
           ++ injection Heq as <- <-. cbn [fmap list_fmap]. rewrite app_nil_r, Hanswer.
              destruct executed as [| q1 executed]; [| reflexivity].
              symmetry. destruct (sqlite.execAll _ _ _ _ _).2 eqn:Hres; [| reflexivity].
              destruct Hsome; [discriminate | reflexivity].
           ++ injection Heq as <- Heq. rewrite fmap_cons.
              change (?x :: ?l) with ([x] ++ l). rewrite app_assoc.
              exact (Hanswers done q rest Heq).
        -- intros Hnone. rewrite (Hall Hnone). reflexivity.
        -- discriminate.
Qed.

(** [setupSqliteSchema] carries out the schema statements that are not blank
    once trimmed, trimmed and in their order, and stops at the first one the
    database refuses: every statement but the last one sent was accepted,
    the answer to the last one is what the function returns, and when it
    returns nil every statement was sent.  When the statements cannot be
    had, nothing is sent. *)
Theorem setupSqliteSchema_executes a h db :
  let run := sqlite.setupSqliteSchema TrimSpace SchemaStatements
               (sqlite.recording a) h db in
  match SchemaStatements "sqlite" with
  | Err err => run = (h, Some err)
  | Ok stmts =>
      exists executed,
        run.1 = h ++ (sqlite.evExec db <$> executed)
        /\ executed `prefix_of` wanted stmts
        /\ (forall done q rest, executed = done ++ q :: rest ->
              sqlite.onExec a (h ++ (sqlite.evExec db <$> done)) db q
              = match rest with [] => run.2 | _ :: _ => None end)
        /\ (run.2 = None -> executed = wanted stmts)
        /\ (run.2 <> None -> executed <> [])
  end.
Proof.
  unfold sqlite.setupSqliteSchema.
  destruct (SchemaStatements "sqlite") as [stmts | err]; [| reflexivity].
  exact (execAll_executes a db stmts h).
Qed.

Lemma setupSqliteSchema_trace a h db :
  exists executed,
    (sqlite.setupSqliteSchema TrimSpace SchemaStatements (sqlite.recording a) h db).1
    = h ++ (sqlite.evExec db <$> executed).
Proof.
  unfold sqlite.setupSqliteSchema.
  destruct (SchemaStatements "sqlite") as [stmts | err].
  - destruct (execAll_executes a db stmts h) as (executed & Htrace & _).
    exists executed. exact Htrace.
  - exists []. cbn. rewrite app_nil_r. reflexivity.
Qed.

(** [NewSqliteTmpClient] leaves nothing behind when it fails.  Once the
    temporary file exists, it is removed exactly when an error is returned,
    and no other path is removed; once the database is open, it is closed
    exactly when an error is returned; and the client returned otherwise
    holds that database and names the temporary file as its data source. *)
Theorem NewSqliteTmpClient_cleans_up a h tmp :
  sqlite.onCreateTemp a h "" "sqlite-" = Ok tmp ->
  let run := sqlite.NewSqliteTmpClient TrimSpace SchemaStatements
               (sqlite.recording a) h in
  let events := drop (length h) run.1 in
  (sqlite.evRemove tmp ∈ events <-> exists e, run.2 = Err e)
  /\ (forall path, sqlite.evRemove path ∈ events -> path = tmp)
  /\ forall db,
       sqlite.onOpen a (h ++ [sqlite.evCreateTemp "" "sqlite-"; sqlite.evFileClose tmp])
         "sqlite" (sqlite.sqliteConnString tmp) = Ok db ->
       (sqlite.evClose db ∈ events <-> exists e, run.2 = Err e)
       /\ (forall c, run.2 = Ok c ->
             c = sqlite.mkClient (sqlite.mkSqliteDB db tmp)
             /\ sqlite.DataSource (sqlite.Client_dbConn c) = tmp).
Proof.
  intros Hmade. unfold sqlite.NewSqliteTmpClient.
  cbn [sqlite.os_CreateTemp sqlite.recording sqlite.File_Name sqlite.File_Close
       sqlite.sql_Open sqlite.os_Remove sqlite.DB_Close].
  rewrite Hmade, <- app_assoc. cbn [app].
  destruct (sqlite.onOpen a _ "sqlite" _) as [db |err] eqn:Hopened.
  - destruct (setupSqliteSchema_trace a
                (h ++ [sqlite.evCreateTemp "" "sqlite-"; sqlite.evFileClose tmp;
                       sqlite.evOpen "sqlite" (sqlite.sqliteConnString tmp)]) db)
      as (executed & Htrace).
    rewrite <- !app_assoc in *. cbn [app] in *.
    destruct (sqlite.setupSqliteSchema _ _ _ _ _) as [h' [e |]]; cbn [fst snd] in *; subst h'.
    + cbn zeta. cbn [fst snd]. rewrite <- !app_assoc. cbn [app]. rewrite drop_app_length.
      assert (Hexec : forall ev, ev ∈ sqlite.evExec db <$> executed ->
                                 exists q, ev = sqlite.evExec db q).
      { intros ev Hin. apply list_elem_of_fmap in Hin as (q & -> & _). eauto. }
      split; [| split].
      * split; [eauto |]. intros _. rewrite !elem_of_cons, elem_of_app, !elem_of_cons. tauto.
      * intros path. rewrite !elem_of_cons, elem_of_app, !elem_of_cons, elem_of_nil.
        intros [H | [H | [H | [Hin | [H | [H | []]]]]]]; try discriminate H.
        -- apply Hexec in Hin as (q & Hq). discriminate Hq.
        -- congruence.
      * intros db' [= <-]. split; [| discriminate].
        split; [eauto |]. intros _. rewrite !elem_of_cons, elem_of_app, !elem_of_cons. tauto.
    + cbn zeta. cbn [fst snd]. rewrite drop_app_length.
      assert (Hexec : forall ev, ev ∈ sqlite.evExec db <$> executed ->
                                 exists q, ev = sqlite.evExec db q).
      { intros ev Hin. apply list_elem_of_fmap in Hin as (q & -> & _). eauto. }
      assert (Hnone : forall ev, (forall q, ev <> sqlite.evExec db q) ->
                ev <> sqlite.evCreateTemp "" "sqlite-" -> ev <> sqlite.evFileClose tmp ->
                ev <> sqlite.evOpen "sqlite" (sqlite.sqliteConnString tmp) ->
                ev ∉ sqlite.evCreateTemp "" "sqlite-" :: sqlite.evFileClose tmp
                     :: sqlite.evOpen "sqlite" (sqlite.sqliteConnString tmp)
                     :: (sqlite.evExec db <$> executed)).
      { intros ev Hq H1 H2 H3. rewrite !elem_of_cons.
        intros [? | [? | [? | Hin]]]; try done.
        apply Hexec in Hin as (q & ->). exact (Hq q eq_refl). }
      split; [| split].
      * split; [intros Hin | intros [e He]; discriminate He].
        exfalso. revert Hin. apply Hnone; discriminate.
      * intros path Hin. exfalso. revert Hin. apply Hnone; discriminate.
      * intros db' [= <-]. split.
        -- split; [intros Hin | intros [e He]; discriminate He].
           exfalso. revert Hin. apply Hnone; discriminate.
        -- intros c [= <-]. split; reflexivity.
  - cbn zeta. cbn [fst snd]. rewrite <- !app_assoc. cbn [app]. rewrite drop_app_length.
    split; [| split].
    + split; [eauto |]. intros _. rewrite !elem_of_cons. tauto.
    + intros path. rewrite !elem_of_cons, elem_of_nil.
      intros [H | [H | [H | [H | []]]]]; try discriminate H. congruence.
    + intros db [=].
Qed.

Variable filepath_Dir : string -> string.

Lemma execAll_rejected rejected w db stmts q :
  q ∈ stmts -> TrimSpace q ≠ ""%string -> rejected (TrimSpace q) = true ->
  let run := sqlite.execAll TrimSpace (sqlite.disk rejected) w db stmts in
  sqlite.files run.1 = sqlite.files w /\ run.2 <> None.
Proof.
  intros Hin Hquery Hrejected. revert w.
  induction stmts as [| query stmts IH]; intros w; [apply elem_of_nil in Hin; done |].
  cbn [sqlite.execAll]. cbn zeta.
  destruct (bool_decide (TrimSpace query = ""%string)) eqn:Hblank.
  - apply bool_decide_eq_true in Hblank.
    apply elem_of_cons in Hin as [-> | Hin]; [done |]. exact (IH Hin w).
  - cbn [sqlite.DB_Exec sqlite.disk].
    destruct (rejected (TrimSpace query)) eqn:Hthis; [split; [reflexivity | discriminate] |].
    apply elem_of_cons in Hin as [-> | Hin]; [congruence |].
    exact (IH Hin _).
Qed.

(** A schema that failed to set up is never set up again.  On a disk that
    keeps its files, when [NewSqliteClient] is given a path that does not
    exist and the database refuses one of the schema statements, the call
    returns an error and leaves the new file where it is; the next call for
    the same path then finds the file, sends no statement, changes nothing,
    and returns a client, whose data source is the empty string. *)
Theorem NewSqliteClient_failed_setup_is_not_retried rejected w path stmts q :
  path ∉ sqlite.files w ->
  SchemaStatements "sqlite" = Ok stmts ->
  q ∈ stmts -> TrimSpace q ≠ ""%string -> rejected (TrimSpace q) = true ->
  let first := sqlite.NewSqliteClient TrimSpace filepath_Dir SchemaStatements
                 (sqlite.disk rejected) w path in
  (exists e, first.2 = Err e)
  /\ path ∈ sqlite.files first.1
  /\ exists client,
       sqlite.NewSqliteClient TrimSpace filepath_Dir SchemaStatements
         (sqlite.disk rejected) first.1 path = (first.1, Ok client)
       /\ sqlite.DataSource (sqlite.Client_dbConn client) = ""%string.
Proof.
  intros Hfresh Hschema Hin Hquery Hrejected.
  unfold sqlite.NewSqliteClient, sqlite.createSqliteDbIfNotExist, sqlite.setupSqliteSchema.
  cbn [sqlite.os_Stat_IsNotExist sqlite.os_MkdirAll sqlite.os_Create sqlite.File_Close
       sqlite.sql_Open sqlite.DB_Close sqlite.disk].
  rewrite (bool_decide_eq_true_2 _ Hfresh), Hschema.
  match goal with |- context [sqlite.execAll _ _ ?w0 ?db _] =>
    destruct (execAll_rejected rejected w0 db stmts q Hin Hquery Hrejected) as [Hfiles Hfailed];
    destruct (sqlite.execAll TrimSpace (sqlite.disk rejected) w0 db stmts)
      as [w1 [e |]] eqn:Hrun
  end; [| done].
  cbn zeta. cbn [fst snd] in *.
  assert (Hthere : path ∈ sqlite.files w1).
  { rewrite Hfiles. cbn. apply elem_of_union_l, elem_of_singleton. reflexivity. }
  split; [eauto |]. split; [exact Hthere |].
  rewrite bool_decide_eq_false_2 by (intros Hnot; exact (Hnot Hthere)).
  eexists. split; reflexivity.
Qed.

End SqliteFacts.

(** Of the three sample statements, the two that are not blank are sent
    trimmed, and the temporary file is removed when the second is refused. *)
Lemma NewSqliteTmpClient_cleans_up_witness :
  let run := sqlite.NewSqliteTmpClient sampleSqlite.TrimSpace
               sampleSqlite.SchemaStatements
               (sqlite.recording sampleSqlite.refusing) [] in
  sqlite.evRemove "/tmp/sqlite-1870" ∈ drop (length (@nil sqlite.Event)) run.1
  <-> exists e, run.2 = Err e.
Proof.
  exact (proj1 (NewSqliteTmpClient_cleans_up sampleSqlite.TrimSpace
                  sampleSqlite.SchemaStatements sampleSqlite.refusing []
                  "/tmp/sqlite-1870" eq_refl)).
Defined.

Lemma NewSqliteClient_failed_setup_is_not_retried_witness :
  let first := sqlite.NewSqliteClient sampleSqlite.TrimSpace
                 sampleSqlite.filepath_Dir sampleSqlite.SchemaStatements
                 (sqlite.disk sampleSqlite.rejected) sampleSqlite.emptyDisk
                 "/var/lib/scheduler/sched.db" in
  (exists e, first.2 = Err e)
  /\ "/var/lib/scheduler/sched.db"%string ∈ sqlite.files first.1
  /\ exists client,
       sqlite.NewSqliteClient sampleSqlite.TrimSpace sampleSqlite.filepath_Dir
         sampleSqlite.SchemaStatements (sqlite.disk sampleSqlite.rejected)
         first.1 "/var/lib/scheduler/sched.db" = (first.1, Ok client)
       /\ sqlite.DataSource (sqlite.Client_dbConn client) = ""%string.
Proof.
  apply (NewSqliteClient_failed_setup_is_not_retried sampleSqlite.TrimSpace
           sampleSqlite.SchemaStatements sampleSqlite.filepath_Dir
           sampleSqlite.rejected sampleSqlite.emptyDisk
           "/var/lib/scheduler/sched.db"
           [ "
  CREATE TABLE dags (DagId TEXT)";
             "
  ";
             "
  CREATE TABLE dagtasks (DagId TEXT, TaskId TEXT)
  "]%string
           "
  CREATE TABLE dagtasks (DagId TEXT, TaskId TEXT)
  ").
  - apply not_elem_of_empty.
  - reflexivity.
  - rewrite !elem_of_cons. tauto.
  - vm_compute. discriminate.
  - vm_compute. reflexivity.
Defined.

(** * Table [dagtasks] *)

Section DagTasksFacts.
Variable Dag : Type.
Variable Dag_Attr_Id : Dag -> string.
Variable Dag_Flatten : Dag -> list dag.Task.
Variable TypeOf_Name : dag.Task -> string.
Variable TaskHash : dag.Task -> string.
Variable Version : string.

#[local] Abbreviation sentAt := (dbdagtasks.sent TypeOf_Name TaskHash Version).
#[local] Abbreviation rollbacked :=
  (errorString "could not sync dag and dagtasks properly. SQL transaction was rollbacked").

Lemma insertEach_all_or_nothing a dagId tasks h :
  let run := dbdagtasks.insertEach TypeOf_Name TaskHash Version
               (dbdagtasks.recording a) h dagId tasks in
  exists stamps stmts final,
    length stamps = length tasks
    /\ run.1 = h ++ (dbdagtasks.evExec <$> stmts) ++ [final]
    /\ stmts `prefix_of` concat (zip_with (sentAt dagId) tasks stamps)
    /\ (forall done stmt rest, stmts = done ++ stmt :: rest ->
          dbdagtasks.onExec a (h ++ (dbdagtasks.evExec <$> done)) stmt = None
          <-> rest <> [] \/ final = dbdagtasks.evCommit)
    /\ (final = dbdagtasks.evCommit
        /\ stmts = concat (zip_with (sentAt dagId) tasks stamps)
        /\ run.2 = dbdagtasks.onCommit a (h ++ (dbdagtasks.evExec <$> stmts))
        \/ final = dbdagtasks.evRollback
           /\ stmts <> []
           /\ run.2 = Some rollbacked).
Proof.
  revert h. induction tasks as [| task tasks IH]; intros h; cbn zeta.
  - exists [], [], dbdagtasks.evCommit. cbn [dbdagtasks.insertEach].
    cbn [dbdagtasks.Commit dbdagtasks.recording].
    split; [reflexivity |]. split.
    { destruct (dbdagtasks.onCommit a h); reflexivity. }
    split; [reflexivity |]. split.
    { intros done stmt rest Heq. destruct done; discriminate. }
    left. split; [reflexivity |]. split; [reflexivity |].
    cbn. rewrite app_nil_r. destruct (dbdagtasks.onCommit a h); reflexivity.
  - cbn [dbdagtasks.insertEach]. unfold dbdagtasks.insertSingleDagTask,
      dbdagtasks.outdateDagTasks, dbdagtasks.insertDagTask.
    cbn [dbdagtasks.Now_Format dbdagtasks.Exec dbdagtasks.Rollback dbdagtasks.recording].
    set (ts := dbdagtasks.onNow a h).
    set (outdate := dbdagtasks.dagTaskOutdateQuery dagId (dag.Task_Id task) ts).
    set (insert := dbdagtasks.dagTaskInsertQuery dagId (dag.Task_Id task) 1 ts Version
                     (TypeOf_Name task) (TaskHash task) (dag.Task_ExecuteSource task)).
    assert (Hsent : forall stamps,
              concat (zip_with (sentAt dagId) (task :: tasks) (ts :: stamps))
              = outdate :: insert :: concat (zip_with (sentAt dagId) tasks stamps))
      by reflexivity.
    destruct (dbdagtasks.onExec a h outdate) as [e |] eqn:Houtdate.
    + exists (ts :: replicate (length tasks) ts), [outdate], dbdagtasks.evRollback.
      cbn [fst snd]. split; [cbn; rewrite length_replicate; reflexivity |].
      split; [rewrite <- app_assoc; reflexivity |].
      split; [rewrite Hsent; apply prefix_cons, prefix_nil |].
      split; [| right; done].
      intros done stmt rest Heq. destruct done as [| ? done].
      * injection Heq as <- <-. cbn. rewrite app_nil_r, Houtdate.
        split; [discriminate | intros [? | ?]; done].
      * injection Heq as _ Heq. destruct done; discriminate.
    + destruct (dbdagtasks.onExec a (h ++ [dbdagtasks.evExec outdate]) insert)
        as [e |] eqn:Hinsert.
      * exists (ts :: replicate (length tasks) ts), [outdate; insert], dbdagtasks.evRollback.
        cbn [fst snd]. split; [cbn; rewrite length_replicate; reflexivity |].
        split; [rewrite <- !app_assoc; reflexivity |].
        split; [rewrite Hsent; apply prefix_cons, prefix_cons, prefix_nil |].
        split; [| right; done].
        intros done stmt rest Heq. destruct done as [| ? done].
        -- injection Heq as <- <-. cbn. rewrite app_nil_r, Houtdate.
           split; [left; discriminate | reflexivity].
        -- injection Heq as <- Heq. destruct done as [| ? done].
           ++ injection Heq as <- <-. cbn [fmap list_fmap]. rewrite Hinsert.
              split; [discriminate | intros [? | ?]; done].
           ++ injection Heq as _ Heq. destruct done; discriminate.
      * destruct (IH ((h ++ [dbdagtasks.evExec outdate]) ++ [dbdagtasks.evExec insert]))
          as (stamps & stmts & final & Hlen & Htrace & Hprefix & Hanswers & Hend).
        exists (ts :: stamps), (outdate :: insert :: stmts), final.
        split; [cbn; rewrite Hlen; reflexivity |].
        split; [rewrite Htrace, <- !app_assoc; reflexivity |].
        split; [rewrite Hsent; apply prefix_cons, prefix_cons, Hprefix |].
        assert (Hlast : forall l : list dbdagtasks.Stmt,
                  l <> [] \/ final = dbdagtasks.evCommit
                  -> l = [] -> final = dbdagtasks.evCommit)
          by (intros l [? | ?] ?; done).
        assert (Hfinal : stmts = [] -> final = dbdagtasks.evCommit).
        { intros ->. destruct Hend as [[? _] | [_ [? _]]]; done. }
        split.
        -- intros done stmt rest Heq. destruct done as [| ? done].
           { injection Heq as <- <-. cbn. rewrite app_nil_r, Houtdate.
             split; [left; discriminate | reflexivity]. }
           injection Heq as <- Heq. destruct done as [| ? done].
           { injection Heq as <- <-. cbn [fmap list_fmap]. rewrite Hinsert.
             split; [| reflexivity]. intros _.
             destruct stmts; [right; auto | left; discriminate]. }
           injection Heq as <- Heq. rewrite !fmap_cons.
           replace (h ++ dbdagtasks.evExec outdate :: dbdagtasks.evExec insert
                      :: (dbdagtasks.evExec <$> done))
             with (((h ++ [dbdagtasks.evExec outdate]) ++ [dbdagtasks.evExec insert])
                     ++ (dbdagtasks.evExec <$> done))
             by (rewrite <- !app_assoc; reflexivity).
           exact (Hanswers done stmt rest Heq).
        -- destruct Hend as [(Hcommit & Hall & Hres) | (Hroll & Hsome & Hres)].
           ++ left. split; [exact Hcommit |]. split; [rewrite Hsent, Hall; reflexivity |].
              rewrite Hres, !fmap_cons, <- !app_assoc. reflexivity.
           ++ right. split; [exact Hroll |]. split; [discriminate | exact Hres].
Qed.

(** [InsertDagTasks] from [Begin] on, for every clock and database.  When
    [Begin] fails the call panics on the nil transaction and nothing else
    is asked of the database.  When [Begin] succeeds the call ends its
    transaction once, and on the first refusal: it sends for the tasks of
    [Flatten], in their order, an outdating statement and an inserting
    statement that carry the same timestamp, until one is refused; the
    transaction then ends with one [Rollback] and the error returned is the
    fixed one, not the database's; when none is refused it ends with one
    [Commit], whose answer is returned as it is, with no [Rollback] after a
    failed [Commit]. *)
Theorem InsertDagTasks_commits_or_rolls_back a h d :
  let run := dbdagtasks.Client_InsertDagTasks Dag Dag_Attr_Id Dag_Flatten
               TypeOf_Name TaskHash Version (dbdagtasks.recordingConn a) h d in
  let h0 := h ++ [dbdagtasks.evBegin] in
  let all stamps :=
    concat (zip_with (sentAt (Dag_Attr_Id d)) (Dag_Flatten d) stamps) in
  match dbdagtasks.onBegin a h with
  | Some _ => run = Panicked dbdags.nilTx h0
  | None =>
      exists stamps stmts final err,
        run = Returned err (h0 ++ (dbdagtasks.evExec <$> stmts) ++ [final])
        /\ length stamps = length (Dag_Flatten d)
        /\ stmts `prefix_of` all stamps
        /\ (forall done stmt rest, stmts = done ++ stmt :: rest ->
              dbdagtasks.onExec a (h0 ++ (dbdagtasks.evExec <$> done)) stmt = None
              <-> rest <> [] \/ final = dbdagtasks.evCommit)
        /\ (final = dbdagtasks.evCommit
            /\ stmts = all stamps
            /\ err = dbdagtasks.onCommit a (h0 ++ (dbdagtasks.evExec <$> stmts))
            \/ final = dbdagtasks.evRollback
               /\ stmts <> []
               /\ err = Some rollbacked)
  end.
Proof.
  unfold dbdagtasks.Client_InsertDagTasks.
  cbn [dbdagtasks.Begin dbdagtasks.begun dbdagtasks.recordingConn].
  destruct (dbdagtasks.onBegin a h) as [bErr |].
  - cbn zeta. destruct (Dag_Flatten d); reflexivity.
  - unfold dbdagtasks.InsertDagTasks.
    destruct (insertEach_all_or_nothing a (Dag_Attr_Id d) (Dag_Flatten d)
                (h ++ [dbdagtasks.evBegin]))
      as (stamps & stmts & final & Hlen & Htrace & Hprefix & Hanswers & Hend).
    destruct (dbdagtasks.insertEach _ _ _ _ _ _ _) as [h' err].
    cbn [fst snd] in *. subst h'.
    exists stamps, stmts, final, err. cbn zeta.
    split; [reflexivity |]. split; [exact Hlen |]. split; [exact Hprefix |].
    split; [exact Hanswers | exact Hend].
Qed.

#[local] Abbreviation rowOf dagId :=
  (fun task insertTs =>
     dbdagtasks.mkRow dagId (dag.Task_Id task) 1 insertTs Version (TypeOf_Name task)
       (TaskHash task) (dag.Task_ExecuteSource task)).
#[local] Abbreviation current dagId taskId :=
  (fun r => bool_decide (dbdagtasks.rDagId r = dagId /\ dbdagtasks.rTaskId r = taskId
                         /\ dbdagtasks.rIsCurrent r = 1)).

Lemma List_find_app {A : Type} (f : A -> bool) (l1 l2 : list A) :
  List.find f (l1 ++ l2)
  = match List.find f l1 with Some x => Some x | None => List.find f l2 end.
Proof.
  induction l1 as [| x l1 IH]; [reflexivity |].
  cbn [app List.find]. destruct (f x); [reflexivity | exact IH].
Qed.

Lemma List_find_none {A : Type} (f : A -> bool) (l : list A) :
  (forall x, x ∈ l -> f x = false) -> List.find f l = None.
Proof.
  induction l as [| x l IH]; intros Hall; [reflexivity |].
  cbn [List.find]. rewrite (Hall x) by (apply elem_of_cons; left; reflexivity).
  apply IH. intros y Hy. apply Hall, elem_of_cons. right. exact Hy.
Qed.

(** On the table that carries out every statement. *)
Lemma insertEach_table clock dagId tasks rows :
  (forall r, r ∈ rows -> dbdagtasks.rDagId r = dagId ->
             dbdagtasks.rTaskId r ∉ dag.Task_Id <$> tasks) ->
  NoDup (dag.Task_Id <$> tasks) ->
  exists stamps,
    length stamps = length tasks
    /\ dbdagtasks.insertEach TypeOf_Name TaskHash Version (dbdagtasks.table clock)
         rows dagId tasks
       = (rows ++ zip_with (rowOf dagId) tasks stamps, None).
Proof.
  revert rows. induction tasks as [| task tasks IH]; intros rows Hfresh Hnodup.
  - exists []. split; [reflexivity |]. cbn. rewrite app_nil_r. reflexivity.
  - rewrite fmap_cons in Hnodup. apply NoDup_cons in Hnodup as [Hhead Hnodup].
    cbn [dbdagtasks.insertEach]. unfold dbdagtasks.insertSingleDagTask,
      dbdagtasks.outdateDagTasks, dbdagtasks.insertDagTask.
    cbn [dbdagtasks.Now_Format dbdagtasks.Exec dbdagtasks.table].
    set (outdated := _ <$> rows).
    assert (Hsame : outdated = rows).
    { subst outdated. rewrite <- (list_fmap_id rows) at 2.
      apply list_fmap_ext. intros i r Hr. apply list_elem_of_lookup_2 in Hr.
      rewrite bool_decide_eq_false_2; [reflexivity |].
      intros (Hdag & Htask & _). apply (Hfresh r Hr Hdag).
      rewrite fmap_cons, Htask. apply elem_of_cons. left. reflexivity. }
    rewrite Hsame.
    destruct (IH (rows ++ [rowOf dagId task (clock rows)])) as (stamps & Hlen & Hrun).
    + intros r Hr Hdag. apply elem_of_app in Hr as [Hr | Hr].
      * intros Hin. apply (Hfresh r Hr Hdag). rewrite fmap_cons.
        apply elem_of_cons. right. exact Hin.
      * apply list_elem_of_singleton in Hr. subst r. exact Hhead.
    + exact Hnodup.
    + exists (clock rows :: stamps). split; [cbn; rewrite Hlen; reflexivity |].
      rewrite Hrun, <- app_assoc. reflexivity.
Qed.

Lemma find_current_new dagId tasks stamps task :
  length stamps = length tasks ->
  NoDup (dag.Task_Id <$> tasks) ->
  task ∈ tasks ->
  exists insertTs,
    List.find (current dagId (dag.Task_Id task)) (zip_with (rowOf dagId) tasks stamps)
    = Some (rowOf dagId task insertTs).
Proof.
  revert stamps. induction tasks as [| task' tasks IH]; intros stamps Hlen Hnodup Hin.
  - apply elem_of_nil in Hin. destruct Hin.
  - destruct stamps as [| ts stamps]; [discriminate |].
    rewrite fmap_cons in Hnodup. apply NoDup_cons in Hnodup as [Hhead Hnodup].
    cbn [zip_with List.find dbdagtasks.rDagId dbdagtasks.rTaskId dbdagtasks.rIsCurrent].
    destruct (decide (dag.Task_Id task' = dag.Task_Id task)) as [Hid | Hid].
    + rewrite bool_decide_eq_true_2 by done.
      apply elem_of_cons in Hin as [-> | Hin]; [eauto |].
      destruct Hhead. rewrite Hid. apply list_elem_of_fmap. eauto.
    + rewrite bool_decide_eq_false_2 by (intros (_ & ? & _); done).
      apply elem_of_cons in Hin as [-> | Hin]; [done |].
      apply IH; [injection Hlen as Hlen; exact Hlen | exact Hnodup | exact Hin].
Qed.

(** Round trip on such a table, for a DAG that has no row yet and whose
    tasks have different identifiers: [InsertDagTasks] returns nil and adds
    one row per task after the rows that were there, and [ReadDagTask] then
    returns for each task its identifiers, the version, the type name, the
    body hash and the body source it was inserted with, marked current; the
    insertion timestamp is not returned: [InsertTs] is empty. *)
Theorem InsertDagTasks_then_ReadDagTask clock rows d :
  Dag_Attr_Id d ∉ dbdagtasks.rDagId <$> rows ->
  NoDup (dag.Task_Id <$> Dag_Flatten d) ->
  let run := dbdagtasks.InsertDagTasks Dag Dag_Attr_Id Dag_Flatten TypeOf_Name
               TaskHash Version (dbdagtasks.table clock) rows d in
  run.2 = None
  /\ (exists new, run.1 = rows ++ new /\ length new = length (Dag_Flatten d))
  /\ forall task, task ∈ Dag_Flatten d ->
       dbdagtasks.ReadDagTask (dbdagtasks.table clock) run.1 (Dag_Attr_Id d)
         (dag.Task_Id task)
       = (run.1,
          ({| dbdagtasks.DagId := Dag_Attr_Id d;
              dbdagtasks.TaskId := dag.Task_Id task;
              dbdagtasks.IsCurrent := true;
              dbdagtasks.InsertTs := "";
              dbdagtasks.Version := Version;
              dbdagtasks.TaskTypeName := TypeOf_Name task;
              dbdagtasks.TaskBodyHash := TaskHash task;
              dbdagtasks.TaskBodySource := dag.Task_ExecuteSource task |}, None)).
Proof.
  intros Hnew Hnodup. unfold dbdagtasks.InsertDagTasks.
  destruct (insertEach_table clock (Dag_Attr_Id d) (Dag_Flatten d) rows)
    as (stamps & Hlen & Hrun); [| exact Hnodup |].
  { intros r Hr Hdag. destruct Hnew. rewrite <- Hdag. apply list_elem_of_fmap. eauto. }
  cbn zeta. rewrite Hrun. cbn [fst snd].
  split; [reflexivity |]. split.
  { eexists. split; [reflexivity |]. rewrite length_zip_with. lia. }
  intros task Hin. unfold dbdagtasks.ReadDagTask.
  cbn [dbdagtasks.QueryRowScan dbdagtasks.table].
  rewrite List_find_app.
  assert (Hold : List.find (current (Dag_Attr_Id d) (dag.Task_Id task)) rows = None).
  { apply List_find_none. intros r Hr. apply bool_decide_eq_false_2.
    intros (Hdag & _). destruct Hnew. rewrite <- Hdag.
    apply list_elem_of_fmap. eauto. }
  rewrite Hold.
  destruct (find_current_new (Dag_Attr_Id d) (Dag_Flatten d) stamps task Hlen Hnodup Hin)
    as (insertTs & ->).
  reflexivity.
Qed.

End DagTasksFacts.

(** The two tasks of the sample DAG, inserted into an empty table, are read
    back. *)
Lemma InsertDagTasks_then_ReadDagTask_witness :
  let run := dbdagtasks.InsertDagTasks dag.Dag Dag_Id sampleTasks.Flatten
               sampleTasks.TypeOf_Name sampleTasks.TaskHash "0.0.1"
               (dbdagtasks.table sampleTasks.clock) [] withTasks in
  dbdagtasks.ReadDagTask (dbdagtasks.table sampleTasks.clock) run.1 "a" "end"
  = (run.1,
     ({| dbdagtasks.DagId := "a";
         dbdagtasks.TaskId := "end";
         dbdagtasks.IsCurrent := true;
         dbdagtasks.InsertTs := "";
         dbdagtasks.Version := "0.0.1";
         dbdagtasks.TaskTypeName := "printTask";
         dbdagtasks.TaskBodyHash := sampleTasks.TaskHash (mkTask "end" "fmt.Println(2)");
         dbdagtasks.TaskBodySource := "fmt.Println(2)" |}, None)).
Proof.
  destruct (InsertDagTasks_then_ReadDagTask dag.Dag Dag_Id sampleTasks.Flatten
              sampleTasks.TypeOf_Name sampleTasks.TaskHash "0.0.1"
              sampleTasks.clock [] withTasks) as (_ & _ & Hread).
  - apply not_elem_of_nil.
  - apply (bool_decide_unpack _). vm_compute. exact I.
  - apply (Hread (mkTask "end" "fmt.Println(2)")).
    apply elem_of_cons. right. apply elem_of_cons. left. reflexivity.
Defined.

(** * The tasks of a DAG *)

Section TasksFacts.
Variable NodeInfo : Type.
Variable NodeInfo_Node : NodeInfo -> dag.Node.
Variable Node_Flatten : option dag.Node -> sched.must (list NodeInfo).

Lemma firstWithId_found nodesInfo taskId t :
  dagTasks.firstWithId NodeInfo NodeInfo_Node nodesInfo taskId = Ok t ->
  dag.Task_Id t = taskId
  /\ exists before after,
       (fun ni => dagTasks.Node_Task (NodeInfo_Node ni)) <$> nodesInfo
       = before ++ t :: after
       /\ taskId ∉ dag.Task_Id <$> before.
Proof.
  induction nodesInfo as [| ni rest IH]; cbn [dagTasks.firstWithId]; [discriminate |].
  destruct (decide (dag.Task_Id (dagTasks.Node_Task (NodeInfo_Node ni)) = taskId))
    as [Hid | Hid].
  - rewrite (bool_decide_eq_true_2 _ Hid). intros [= <-]. split; [exact Hid |].
    exists [], ((fun ni => dagTasks.Node_Task (NodeInfo_Node ni)) <$> rest).
    split; [reflexivity |]. apply not_elem_of_nil.
  - rewrite (bool_decide_eq_false_2 _ Hid). intros Hrest.
    destruct (IH Hrest) as (Hfound & before & after & Hsplit & Hnot).
    split; [exact Hfound |].
    exists (dagTasks.Node_Task (NodeInfo_Node ni) :: before), after.
    rewrite fmap_cons, Hsplit. split; [reflexivity |].
    rewrite fmap_cons, not_elem_of_cons. split; [congruence | exact Hnot].
Qed.

Lemma firstWithId_missing nodesInfo taskId e :
  dagTasks.firstWithId NodeInfo NodeInfo_Node nodesInfo taskId = Err e ->
  e = dagTasks.ErrTaskNotFoundInDag
  /\ taskId ∉ dag.Task_Id <$> ((fun ni => dagTasks.Node_Task (NodeInfo_Node ni))
                                  <$> nodesInfo).
Proof.
  induction nodesInfo as [| ni rest IH]; cbn [dagTasks.firstWithId].
  - intros [= <-]. split; [reflexivity | apply not_elem_of_nil].
  - destruct (decide (dag.Task_Id (dagTasks.Node_Task (NodeInfo_Node ni)) = taskId))
      as [Hid | Hid].
    + rewrite (bool_decide_eq_true_2 _ Hid). discriminate.
    + rewrite (bool_decide_eq_false_2 _ Hid). intros Hrest.
      destruct (IH Hrest) as [-> Hnot]. split; [reflexivity |].
      rewrite !fmap_cons, not_elem_of_cons. split; [congruence | exact Hnot].
Qed.

(** [GetTask] and [Flatten] agree on a DAG that has a root.  When [Flatten]
    returns the tasks, [GetTask] returns the first of them that has the
    identifier asked for, and [ErrTaskNotFoundInDag] exactly when none has;
    so every task of a DAG whose identifiers are unique is found by its
    identifier; and the tasks are those of the nodes of [FlattenNodes], in
    their order.  When [Flatten] panics, so does [GetTask]. *)
Theorem GetTask_finds_the_tasks_of_Flatten d root :
  dag.Dag_Root d = Some root ->
  match dagTasks.Flatten NodeInfo NodeInfo_Node Node_Flatten d with
  | sched.Panic msg =>
      forall taskId,
        dagTasks.GetTask NodeInfo NodeInfo_Node Node_Flatten d taskId = sched.Panic msg
  | sched.Value tasks =>
      (forall taskId,
         exists found,
           dagTasks.GetTask NodeInfo NodeInfo_Node Node_Flatten d taskId
           = sched.Value found
           /\ match found with
              | Ok t =>
                  dag.Task_Id t = taskId
                  /\ exists before after,
                       tasks = before ++ t :: after
                       /\ taskId ∉ dag.Task_Id <$> before
              | Err e =>
                  e = dagTasks.ErrTaskNotFoundInDag
                  /\ taskId ∉ dag.Task_Id <$> tasks
              end)
      /\ (NoDup (dag.Task_Id <$> tasks) ->
          forall t, t ∈ tasks ->
            dagTasks.GetTask NodeInfo NodeInfo_Node Node_Flatten d (dag.Task_Id t)
            = sched.Value (Ok t))
      /\ exists nodesInfo,
           dagTasks.FlattenNodes NodeInfo Node_Flatten d = sched.Value nodesInfo
           /\ tasks = (fun ni => dagTasks.Node_Task (NodeInfo_Node ni)) <$> nodesInfo
  end.
Proof.
  intros Hroot. unfold dagTasks.Flatten, dagTasks.GetTask, dagTasks.FlattenNodes.
  rewrite Hroot.
  destruct (Node_Flatten (Some root)) as [nodesInfo | msg]; [| reflexivity].
  apply and_assoc. split; [| exists nodesInfo; split; reflexivity].
  assert (Hfirst : forall taskId,
            match dagTasks.firstWithId NodeInfo NodeInfo_Node nodesInfo taskId with
            | Ok t =>
                dag.Task_Id t = taskId
                /\ exists before after,
                     (fun ni => dagTasks.Node_Task (NodeInfo_Node ni)) <$> nodesInfo
                     = before ++ t :: after
                     /\ taskId ∉ dag.Task_Id <$> before
            | Err e =>
                e = dagTasks.ErrTaskNotFoundInDag
                /\ taskId ∉ dag.Task_Id
                     <$> ((fun ni => dagTasks.Node_Task (NodeInfo_Node ni)) <$> nodesInfo)
            end).
  { intros taskId.
    destruct (dagTasks.firstWithId _ _ nodesInfo taskId) as [t | e] eqn:Hget.
    - exact (firstWithId_found _ _ _ Hget).
    - exact (firstWithId_missing _ _ _ Hget). }
  split.
  - intros taskId. eexists. split; [reflexivity |]. exact (Hfirst taskId).
  - intros Hnodup t Hin. f_equal. specialize (Hfirst (dag.Task_Id t)).
    destruct (dagTasks.firstWithId _ _ nodesInfo (dag.Task_Id t)) as [t' | e].
    + destruct Hfirst as (Hid & before & after & Hsplit & Hnot). f_equal.
      rewrite Hsplit in Hin, Hnodup.
      rewrite fmap_app, fmap_cons in Hnodup.
      apply NoDup_app in Hnodup as (_ & Hdisjoint & Htail).
      apply NoDup_cons in Htail as [Hfresh _].
      apply elem_of_app in Hin as [Hin | Hin].
      * destruct Hnot. apply list_elem_of_fmap. eauto.
      * apply elem_of_cons in Hin as [-> | Hin]; [reflexivity |].
        destruct Hfresh. rewrite Hid. apply list_elem_of_fmap. eauto.
    + destruct Hfirst as [_ Hnot]. destruct Hnot. apply list_elem_of_fmap. eauto.
Qed.

End TasksFacts.

(** In the sample DAG, whose two tasks have different identifiers, the task
    [end] is found by its identifier. *)
Lemma GetTask_finds_the_tasks_of_Flatten_witness :
  dagTasks.GetTask dag.Node (fun n => n) sampleTasks.Node_Flatten withTasks "end"
  = sched.Value (Ok (mkTask "end" "fmt.Println(2)")).
Proof.
  pose proof (GetTask_finds_the_tasks_of_Flatten dag.Node (fun n => n)
                sampleTasks.Node_Flatten withTasks
                (mkNode (mkTask "start" "fmt.Println(1)")
                   [mkNode (mkTask "end" "fmt.Println(2)") []])
                eq_refl) as (_ & Hfound & _).
  apply (Hfound ltac:(apply (bool_decide_unpack _); vm_compute; exact I)
           (mkTask "end" "fmt.Println(2)")).
  apply elem_of_cons. right. apply elem_of_cons. left. reflexivity.
Defined.
